(** * tableau_dimension_mapper: the tool handlers of [server.py]

    A shallow embedding of [call_tool] from
    [src/tableau_dimension_mapper/server.py]: the mapping loaders, the
    replacement loop of [remap_dimensions], the extension checks of the two
    validators and the collection loops of [analyze_workbook], followed by the
    properties of the natural-language specification that they decide. *)

From Stdlib Require Import Ascii String.
From stdpp Require Import gmap strings list fin_maps.

(** ** Python string methods

    Texts are Stdlib strings read as sequences of characters with code points
    below 256.  The methods below follow the documented behaviour of the
    [str] methods that [server.py] calls. *)

Module Py.

(** [str.isspace] on one character: the code points below 256 that Python
    classifies as whitespace (TAB..CR, FS..US, SPACE, NEL, NBSP). *)
Definition isspace (c : ascii) : bool :=
  let n := nat_of_ascii c in
  ((9 <=? n) && (n <=? 13)) || ((28 <=? n) && (n <=? 32))
  || (n =? 133) || (n =? 160).

(** [s.lstrip()] *)
Fixpoint lstrip (s : string) : string :=
  match s with
  | EmptyString => EmptyString
  | String c s' => if isspace c then lstrip s' else s
  end.

(** [s.rstrip()] *)
Fixpoint rstrip (s : string) : string :=
  match s with
  | EmptyString => EmptyString
  | String c s' =>
      match rstrip s' with
      | EmptyString => if isspace c then EmptyString else String c EmptyString
      | r => String c r
      end
  end.

(** [s.strip()] *)
Definition strip (s : string) : string := rstrip (lstrip s).

(** [s.split()] with no argument: the maximal runs of non-whitespace
    characters, in order; [cur] is the run being read, reversed. *)
Fixpoint split_go (cur : string) (s : string) : list string :=
  match s with
  | EmptyString =>
      match cur with EmptyString => [] | _ => [String.rev cur] end
  | String c s' =>
      if isspace c
      then match cur with
           | EmptyString => split_go EmptyString s'
           | _ => String.rev cur :: split_go EmptyString s'
           end
      else split_go (String c cur) s'
  end.
Definition split (s : string) : list string := split_go EmptyString s.

(** [c.lower()] for a code point below 256: A..Z and the Latin-1 capitals
    (0xC0..0xDE without the multiplication sign 0xD7) move up by 32. *)
Definition lower_char (c : ascii) : ascii :=
  let n := nat_of_ascii c in
  if ((65 <=? n) && (n <=? 90))
     || ((192 <=? n) && (n <=? 222) && negb (n =? 215))
  then ascii_of_nat (n + 32) else c.

(** [s.lower()] *)
Fixpoint lower (s : string) : string :=
  match s with
  | EmptyString => EmptyString
  | String c s' => String (lower_char c) (lower s')
  end.

(** [s[n:]] *)
Fixpoint drop (n : nat) (s : string) : string :=
  match n, s with
  | O, _ => s
  | S k, EmptyString => EmptyString
  | S k, String _ s' => drop k s'
  end.

(** [s.endswith(suffix)] *)
Definition endswith (s suffix : string) : bool :=
  (String.length suffix <=? String.length s)
  && String.eqb (drop (String.length s - String.length suffix) s) suffix.

(** [s.count(sub)] for a non-empty [sub]: scan from the left; at a match
    count one and step over the whole match ([skip] is the number of
    characters of the current match still to step over). *)
Fixpoint count_go (sub : string) (skip : nat) (s : string) : nat :=
  match s with
  | EmptyString => 0
  | String c s' =>
      match skip with
      | S k => count_go sub k s'
      | O => if String.prefix sub s
             then S (count_go sub (String.length sub - 1) s')
             else count_go sub 0 s'
      end
  end.

(** [s.count(sub)]: the number of non-overlapping occurrences of [sub] in
    [s]; the empty string occurs between all characters and at both ends. *)
Definition count (s sub : string) : nat :=
  match sub with
  | EmptyString => S (String.length s)
  | _ => count_go sub 0 s
  end.

(** [s.replace(old, new)] for a non-empty [old], scanning as [count_go]. *)
Fixpoint replace_go (old new : string) (skip : nat) (s : string) : string :=
  match s with
  | EmptyString => EmptyString
  | String c s' =>
      match skip with
      | S k => replace_go old new k s'
      | O => if String.prefix old s
             then new +:+ replace_go old new (String.length old - 1) s'
             else String c (replace_go old new 0 s')
      end
  end.

(** [s.replace("", new)]: [new] before every character and at the end. *)
Fixpoint intersperse (new : string) (s : string) : string :=
  match s with
  | EmptyString => new
  | String c s' => new +:+ String c (intersperse new s')
  end.

(** [s.replace(old, new)]: every non-overlapping occurrence of [old],
    found from the left, becomes [new]. *)
Definition replace (s old new : string) : string :=
  match old with
  | EmptyString => intersperse new s
  | _ => replace_go old new 0 s
  end.

End Py.

(** ** The parsed document

    [BeautifulSoup(content, 'lxml-xml')] gives a tree of tags; a tag has a
    name, a dictionary of attributes and its child tags in document order.
    The soup object itself is the root of the tree (it is not a tag of the
    document and [find_all] never returns it). *)

#[warnings="-register-all"]
Inductive Tag : Type :=
  mkTag { tag_name : string; attrs : gmap string string; contents : list Tag }.

(** All tags below [t], in document order. *)
Fixpoint descendants (t : Tag) : list Tag :=
  match t with
  | mkTag _ _ cs => flat_map (fun c => c :: descendants c) cs
  end.

(** [soup.find_all(label)] *)
Definition find_all (label : string) (soup : Tag) : list Tag :=
  filter (fun t => tag_name t = label) (descendants soup).

(** [soup.workbook], that is [soup.find('workbook')]; [None] when absent. *)
Definition soup_workbook (soup : Tag) : option Tag :=
  head (find_all "workbook" soup).

(** [tag.get(key, default)] *)
Definition get (t : Tag) (key dflt : string) : string :=
  default dflt (attrs t !! key).

(** Truth value of a Python string: non-empty. *)
Definition truthy (s : string) : bool := negb (String.eqb s "").

(** ** Results of a tool call *)

(** The outcome of an operation of a collaborator that can raise. *)
Inductive attempt (A : Type) : Type :=
| Raised (e : string)
| Got (a : A).
Arguments Raised {A} e.
Arguments Got {A} a.

(** The values interpolated into the text of the [TextContent] a handler
    returns; the comment gives the text. *)
Inductive Message : Type :=
| TomlContents (text : string)
    (* f.read() *)
| ErrReadingToml (e : string)
    (* Error reading TOML file: {e} *)
| ErrNotCsv (path : string)
    (* Error: File must be a CSV file. Got {path} *)
| ErrLine (n : nat)
    (* Error: Line {n} does not have at least two columns *)
| ErrMappingEmpty
    (* Error: Mapping file is empty *)
| MappingValid (mappings : list (string * string))
    (* Mapping file is valid with {len(mappings)} mappings: ... *)
| ErrValidatingMapping (e : string)
    (* Error validating mapping file: {e} *)
| ErrNotTwb (path : string)
    (* Error: File must be a Tableau workbook (.twb) file. Got {path} *)
| ErrNotWorkbook
    (* Error: File does not appear to be a valid Tableau workbook *)
| WorkbookValid (version : string) (datasources worksheets : nat)
    (* Tableau workbook is valid (version {version}) with {datasources}
       datasources and {worksheets} worksheets *)
| ErrValidatingWorkbook (e : string)
    (* Error validating Tableau workbook: {e} *)
| Remapped (replacements_made : nat) (mappings : list (string * string))
           (details : list (string * string * nat)) (distinct : nat)
           (output_file_path : string)
    (* Successfully remapped dimensions ... Made {replacements_made}
       replacements using {len(mappings)} mapping rules. Replacement details:
       one line "{old} -> {new}: {count} replacements" per entry of [details];
       {distinct} is len(replacements_by_mapping) *)
| ErrRemapping (e : string)
    (* Error remapping dimensions: {e} *)
| Analysis (file version : string) (worksheets columns : list string)
           (prefixed_fields : list (string * list string))
    (* Tableau Workbook Analysis: basename of {file}, {version},
       len(worksheets), len(columns), sorted(columns), sorted(worksheets) and,
       of [prefixed_fields], the groups with more than one field *)
| ErrAnalyzing (e : string)
    (* Error analyzing workbook: {e} *)
| Wrote (file_path : string)
    (* Successfully wrote content to file: {file_path} *)
| ErrWriting (e : string).
    (* Error writing to file: {e} *)

(** A handler returns a text or raises [ValueError]. *)
Inductive Outcome : Type :=
| Text (m : Message)
| ValueError_missing (required_args : list string)
    (* Missing required argument(s) ... *)
| ValueError_unknown (name : string).
    (* Unknown tool: {name} *)

(** ** Collaborators

    The file-system helpers, [csv.reader] and the XML parser are outside the
    handlers.  A handler is a tree of requests to them: each request names
    what is asked and continues with the answer. *)

Inductive IO (A : Type) : Type :=
| Ret (a : A)
| OpenCsv (path : string) (k : attempt (list (list string)) -> IO A)
    (* open(path, 'r'); the rows of csv.reader(f) *)
| OpenRead (path : string) (k : attempt string -> IO A)
    (* open(path, 'r'); f.read() *)
| OpenSoup (path : string) (k : attempt Tag -> IO A)
    (* open(path, 'r'); BeautifulSoup(f.read(), 'lxml-xml') *)
| MakeParentDirs (path : string) (k : option string -> IO A)
    (* os.makedirs(os.path.dirname(path), exist_ok=True);
       Some e when it raises *)
| OpenWrite (path content : string) (k : option string -> IO A).
    (* open(path, 'w'); f.write(content); Some e when it raises *)
Arguments Ret {A} a.
Arguments OpenCsv {A} path k.
Arguments OpenRead {A} path k.
Arguments OpenSoup {A} path k.
Arguments MakeParentDirs {A} path k.
Arguments OpenWrite {A} path content k.

(** A file system answers the requests; reading leaves it as it is. *)
Class FileSystem (W : Type) : Type := {
  fs_csv : W -> string -> attempt (list (list string));
  fs_read : W -> string -> attempt string;
  fs_soup : W -> string -> attempt Tag;
  fs_makedirs : W -> string -> W * option string;
  fs_write : W -> string -> string -> W * option string
}.

(** Running a handler against a file system: the result and the file system
    it leaves. *)
Fixpoint run {W A} `{FileSystem W} (w : W) (p : IO A) : A * W :=
  match p with
  | Ret a => (a, w)
  | OpenCsv path k => run w (k (fs_csv w path))
  | OpenRead path k => run w (k (fs_read w path))
  | OpenSoup path k => run w (k (fs_soup w path))
  | MakeParentDirs path k =>
      let '(w', r) := fs_makedirs w path in run w' (k r)
  | OpenWrite path content k =>
      let '(w', r) := fs_write w path content in run w' (k r)
  end.

(** ** The handlers of [call_tool] *)

(** *** Mapping loaders *)

Definition row_pair (row : list string) : string * string :=
  (Py.strip (nth 0 row ""), Py.strip (nth 1 row "")).

(** The loop of [validate_mapping_file] over [enumerate(reader)], at index
    [i] with [mappings] collected so far: the first row with fewer than two
    columns ends it with its line number [i+1]. *)
Fixpoint validate_rows (i : nat) (mappings : list (string * string))
    (rows : list (list string)) : nat + list (string * string) :=
  match rows with
  | [] => inr mappings
  | row :: rest =>
      if length row <? 2 then inl (i + 1)
      else validate_rows (S i) (mappings ++ [row_pair row]) rest
  end.

(** The loop of [remap_dimensions] over [reader]: rows with fewer than two
    columns are passed over. *)
Definition load_rows (rows : list (list string)) : list (string * string) :=
  fold_left
    (fun mappings row =>
       if 2 <=? length row then mappings ++ [row_pair row] else mappings)
    rows [].

(** *** The replacement loop of [remap_dimensions] *)

Record Replacing : Type := mkReplacing {
  modified_content : string;
  replacements_made : nat;
  replacements_by_mapping : gmap string nat
}.

Definition replace_step (st : Replacing) (m : string * string) : Replacing :=
  let '(old, new) := m in
  let occurrences := Py.count (modified_content st) old in
  if 0 <? occurrences then
    {| modified_content := Py.replace (modified_content st) old new;
       replacements_made := replacements_made st + occurrences;
       replacements_by_mapping :=
         <[old := occurrences]> (replacements_by_mapping st) |}
  else st.

Definition apply_replacements (mappings : list (string * string))
    (tableau_content : string) : Replacing :=
  fold_left replace_step mappings
    {| modified_content := tableau_content;
       replacements_made := 0;
       replacements_by_mapping := ∅ |}.

(** The lines of "Replacement details": for every rule, in order, the count
    [replacements_by_mapping.get(old, 0)]. *)
Definition replacements_details (mappings : list (string * string))
    (report : gmap string nat) : list (string * string * nat) :=
  map (fun m => (fst m, snd m, default 0 (report !! fst m))) mappings.

(** [sum(replacements_by_mapping.values())] *)
Definition report_sum (report : gmap string nat) : nat :=
  map_fold (fun _ occurrences acc => occurrences + acc) 0 report.

(** *** The collection loops of [analyze_workbook] *)

(** [columns]: the [name] of every [column] tag, if non-empty and not
    collected before. *)
Definition collect_columns (soup : Tag) : list string :=
  fold_left
    (fun columns column =>
       let name := get column "name" "" in
       if truthy name && negb (bool_decide (name ∈ columns))
       then columns ++ [name] else columns)
    (find_all "column" soup) [].

(** [calculated_fields]: the [formula] of every [calculation] tag, if
    non-empty. *)
Definition collect_calculated_fields (soup : Tag) : list string :=
  fold_left
    (fun calculated_fields calculation =>
       let formula := get calculation "formula" "" in
       if truthy formula then calculated_fields ++ [formula]
       else calculated_fields)
    (find_all "calculation" soup) [].

(** [worksheets]: the [name] of every [worksheet] tag, if non-empty. *)
Definition collect_worksheets (soup : Tag) : list string :=
  fold_left
    (fun worksheets worksheet =>
       let name := get worksheet "name" "" in
       if truthy name then worksheets ++ [name] else worksheets)
    (find_all "worksheet" soup) [].

(** A dictionary that keeps the order in which its keys were first set, as
    [prefixed_fields] does: a list of entries with distinct keys. *)
Fixpoint dict_has (prefix : string) (d : list (string * list string)) : bool :=
  match d with
  | [] => false
  | (k, _) :: d' => String.eqb k prefix || dict_has prefix d'
  end.

(** [d[prefix].append(column)] *)
Fixpoint dict_append (prefix column : string)
    (d : list (string * list string)) : list (string * list string) :=
  match d with
  | [] => []
  | (k, fields) :: d' =>
      if String.eqb k prefix then (k, fields ++ [column]) :: d'
      else (k, fields) :: dict_append prefix column d'
  end.

(** One round of the pattern-detection loop. *)
Definition prefix_step (prefixed_fields : list (string * list string))
    (column : string) : list (string * list string) :=
  let parts := Py.split column in
  if 1 <? length parts then
    let prefix := nth 0 parts "" in
    if dict_has prefix prefixed_fields
    then dict_append prefix column prefixed_fields
    else prefixed_fields ++ [(prefix, [column])]
  else prefixed_fields.

Definition prefixed_fields (columns : list string)
    : list (string * list string) :=
  fold_left prefix_step columns [].

(** The groups the report prints: those with more than one field. *)
Definition displayed_patterns (d : list (string * list string))
    : list (string * list string) :=
  filter (fun e => 1 < length (snd e)) d.

(** *** The handlers

    [arguments] is the dictionary of the call; the schemas of [list_tools]
    make every value a string. *)

Definition extract_toml_mappings (arguments : gmap string string)
    : IO Outcome :=
  match arguments !! "toml_file_path", arguments !! "output_csv_path" with
  | Some toml_file_path, Some _ =>
      OpenRead toml_file_path (fun r =>
        Ret (Text match r with
                  | Raised e => ErrReadingToml e
                  | Got text => TomlContents text
                  end))
  | _, _ => Ret (ValueError_missing ["toml_file_path"; "output_csv_path"])
  end.

(** The body of [validate_mapping_file] once the file is open. *)
Definition validated_mapping (r : attempt (list (list string))) : Message :=
  match r with
  | Raised e => ErrValidatingMapping e
  | Got rows =>
      match validate_rows 0 [] rows with
      | inl n => ErrLine n
      | inr [] => ErrMappingEmpty
      | inr mappings => MappingValid mappings
      end
  end.

Definition validate_mapping_file (arguments : gmap string string)
    : IO Outcome :=
  match arguments !! "mapping_file_path" with
  | None => Ret (ValueError_missing ["mapping_file_path"])
  | Some mapping_file_path =>
      if negb (Py.endswith (Py.lower mapping_file_path) ".csv")
      then Ret (Text (ErrNotCsv mapping_file_path))
      else OpenCsv mapping_file_path (fun r => Ret (Text (validated_mapping r)))
  end.

(** The body of [validate_tableau_workbook] once the file is parsed. *)
Definition validated_workbook (r : attempt Tag) : Message :=
  match r with
  | Raised e => ErrValidatingWorkbook e
  | Got soup =>
      match soup_workbook soup with
      | None => ErrNotWorkbook
      | Some workbook =>
          WorkbookValid (get workbook "version" "unknown")
                        (length (find_all "datasource" soup))
                        (length (find_all "worksheet" soup))
      end
  end.

Definition validate_tableau_workbook (arguments : gmap string string)
    : IO Outcome :=
  match arguments !! "workbook_file_path" with
  | None => Ret (ValueError_missing ["workbook_file_path"])
  | Some workbook_file_path =>
      if negb (Py.endswith (Py.lower workbook_file_path) ".twb")
      then Ret (Text (ErrNotTwb workbook_file_path))
      else OpenSoup workbook_file_path (fun r =>
             Ret (Text (validated_workbook r)))
  end.

(** [remap_dimensions] from "Apply replacements" on. *)
Definition remap_content (mappings : list (string * string))
    (tableau_content output_file_path : string) : IO Outcome :=
  let st := apply_replacements mappings tableau_content in
  MakeParentDirs output_file_path (fun r =>
    match r with
    | Some e => Ret (Text (ErrRemapping e))
    | None =>
        OpenWrite output_file_path (modified_content st) (fun r =>
          match r with
          | Some e => Ret (Text (ErrRemapping e))
          | None =>
              Ret (Text (Remapped
                           (replacements_made st) mappings
                           (replacements_details mappings
                              (replacements_by_mapping st))
                           (size (replacements_by_mapping st))
                           output_file_path))
          end)
    end).

(** [remap_dimensions] once the mapping file has been read. *)
Definition remap_mappings (mappings : list (string * string))
    (workbook_file_path output_file_path : string) : IO Outcome :=
  match mappings with
  | [] => Ret (Text ErrMappingEmpty)
  | _ =>
      OpenRead workbook_file_path (fun r =>
        match r with
        | Raised e => Ret (Text (ErrRemapping e))
        | Got tableau_content =>
            remap_content mappings tableau_content output_file_path
        end)
  end.

Definition remap_dimensions (arguments : gmap string string) : IO Outcome :=
  match arguments !! "mapping_file_path", arguments !! "workbook_file_path",
        arguments !! "output_file_path" with
  | Some mapping_file_path, Some workbook_file_path, Some output_file_path =>
      OpenCsv mapping_file_path (fun r =>
        match r with
        | Raised e => Ret (Text (ErrRemapping e))
        | Got rows =>
            remap_mappings (load_rows rows) workbook_file_path output_file_path
        end)
  | _, _, _ =>
      Ret (ValueError_missing
             ["mapping_file_path"; "workbook_file_path"; "output_file_path"])
  end.

(** The body of [analyze_workbook] once the file is parsed;
    [soup.workbook.get] raises when there is no [workbook] tag. *)
Definition analysis (workbook_file_path : string) (r : attempt Tag) : Message :=
  match r with
  | Raised e => ErrAnalyzing e
  | Got soup =>
      let columns := collect_columns soup in
      let worksheets := collect_worksheets soup in
      match soup_workbook soup with
      | None => ErrAnalyzing "'NoneType' object has no attribute 'get'"
      | Some workbook =>
          Analysis workbook_file_path (get workbook "version" "unknown")
                   worksheets columns (prefixed_fields columns)
      end
  end.

Definition analyze_workbook (arguments : gmap string string) : IO Outcome :=
  match arguments !! "workbook_file_path" with
  | None => Ret (ValueError_missing ["workbook_file_path"])
  | Some workbook_file_path =>
      OpenSoup workbook_file_path (fun r =>
        Ret (Text (analysis workbook_file_path r)))
  end.

Definition write_file (arguments : gmap string string) : IO Outcome :=
  match arguments !! "file_path", arguments !! "content" with
  | Some file_path, Some content =>
      MakeParentDirs file_path (fun r =>
        match r with
        | Some e => Ret (Text (ErrWriting e))
        | None =>
            OpenWrite file_path content (fun r =>
              Ret (Text match r with
                        | Some e => ErrWriting e
                        | None => Wrote file_path
                        end))
        end)
  | _, _ => Ret (ValueError_missing ["file_path"; "content"])
  end.

Definition call_tool (name : string) (arguments : gmap string string)
    : IO Outcome :=
  if decide (name = "extract_toml_mappings")
  then extract_toml_mappings arguments
  else if decide (name = "validate_mapping_file")
  then validate_mapping_file arguments
  else if decide (name = "validate_tableau_workbook")
  then validate_tableau_workbook arguments
  else if decide (name = "remap_dimensions")
  then remap_dimensions arguments
  else if decide (name = "analyze_workbook")
  then analyze_workbook arguments
  else if decide (name = "write_file")
  then write_file arguments
  else Ret (ValueError_unknown name).

(** ** A file system in memory

    Files are kept by path: mapping files as the rows their reader yields,
    workbooks as text with the tree their parser builds.  Creating the parent
    directory of a path without one raises, as [os.makedirs('')] does. *)

Record MemFS : Type := mkMemFS {
  csv_files : gmap string (list (list string));
  text_files : gmap string string;
  soups : gmap string Tag
}.

Definition missing {A} (o : option A) : attempt A :=
  match o with
  | Some a => Got a
  | None => Raised "[Errno 2] No such file or directory"
  end.

Definition has_dir (path : string) : bool :=
  existsb (fun c => Ascii.eqb c "/"%char) (list_ascii_of_string path).

#[global] Instance MemFS_FileSystem : FileSystem MemFS := {|
  fs_csv w path := missing (csv_files w !! path);
  fs_read w path := missing (text_files w !! path);
  fs_soup w path := missing (soups w !! path);
  fs_makedirs w path :=
    (w, if has_dir path then None
        else Some "[Errno 2] No such file or directory: ''");
  fs_write w path content :=
    ({| csv_files := csv_files w;
        text_files := <[path := content]> (text_files w);
        soups := soups w |}, None)
|}.

(** ** The algorithms in the words of the specification *)

(** Section 4.1: for each rule in order, count the occurrences of [original]
    in the current text, record the count under [original], replace. *)
Definition spec_step (st : string * gmap string nat) (m : string * string)
    : string * gmap string nat :=
  let '(text, report) := st in
  (Py.replace text (fst m) (snd m), <[fst m := Py.count text (fst m)]> report).

Definition spec_apply (rules : list (string * string)) (text : string)
    : string * gmap string nat :=
  fold_left spec_step rules (text, ∅).

(** A set-like ordered collection: each value once, at its first position. *)
Fixpoint first_seen (l : list string) : list string :=
  match l with
  | [] => []
  | x :: l' => x :: filter (fun y => y ≠ x) (first_seen l')
  end.

(** Section 4.2, clustering: a field name of two or more tokens belongs to
    the group of its first token; the groups are listed in the order in which
    their prefixes first occur, and only those with two or more fields. *)
Definition cluster_prefix (field : string) : option string :=
  match Py.split field with
  | prefix :: _ :: _ => Some prefix
  | _ => None
  end.

Definition cluster_members (prefix : string) (fields : list string)
    : list string :=
  filter (fun field => cluster_prefix field = Some prefix) fields.

Definition spec_groups (fields : list string) : list (string * list string) :=
  map (fun prefix => (prefix, cluster_members prefix fields))
      (first_seen (omap cluster_prefix fields)).

Definition spec_clusters (fields : list string) : list (string * list string) :=
  filter (fun e => 2 <= length (snd e)) (spec_groups fields).

(** A string is trimmed when neither its first nor its last character is
    whitespace. *)
Definition first_char (s : string) : option ascii :=
  match s with
  | EmptyString => None
  | String c _ => Some c
  end.

Fixpoint last_char (s : string) : option ascii :=
  match s with
  | EmptyString => None
  | String c EmptyString => Some c
  | String _ s' => last_char s'
  end.

Definition trimmed (s : string) : Prop :=
  forall c, first_char s = Some c \/ last_char s = Some c ->
            Py.isspace c = false.

Definition trimmed_rule (m : string * string) : Prop :=
  trimmed (fst m) /\ trimmed (snd m).

(** ** The tools and prompts the server lists *)

(** An entry of [list_tools]: the name of the tool, the properties of its
    input schema (all of type string) and the ones the schema requires. *)
Record Tool : Type := mkTool {
  tool_name : string;
  tool_properties : list string;
  tool_required : list string
}.

Definition list_tools : list Tool :=
  [ mkTool "remap_dimensions"
      ["mapping_file_path"; "workbook_file_path"; "output_file_path"]
      ["mapping_file_path"; "workbook_file_path"; "output_file_path"];
    mkTool "extract_toml_mappings"
      ["toml_file_path"; "output_csv_path"]
      ["toml_file_path"; "output_csv_path"];
    mkTool "validate_mapping_file"
      ["mapping_file_path"] ["mapping_file_path"];
    mkTool "validate_tableau_workbook"
      ["workbook_file_path"] ["workbook_file_path"];
    mkTool "analyze_workbook"
      ["workbook_file_path"] ["workbook_file_path"];
    mkTool "write_file"
      ["file_path"; "content"] ["file_path"; "content"] ].

(** An entry of [list_prompts]: the name of the prompt and, for each of its
    arguments, whether it is required. *)
Definition list_prompts : list (string * list (string * bool)) :=
  [ ("remap_dimensions_from_toml",
     [ ("Workbook File Path", true);
       ("Remapping TOML Path", true);
       ("Output File Path", false) ]) ].

(** ** [os.path] on POSIX *)

Module OsPath.

(** [p.rfind(c) + 1]: the position after the last [c] of [p], 0 when [p]
    has none. *)
Fixpoint after_last (c : ascii) (p : string) : nat :=
  match p with
  | EmptyString => 0
  | String a p' =>
      match after_last c p' with
      | S k => S (S k)
      | O => if Ascii.eqb a c then 1 else 0
      end
  end.

(** [p[:n]] *)
Fixpoint take (n : nat) (p : string) : string :=
  match n, p with
  | O, _ => EmptyString
  | S k, EmptyString => EmptyString
  | S k, String a p' => String a (take k p')
  end.

(** [head == '/' * len(head)] *)
Fixpoint all_sep (head : string) : bool :=
  match head with
  | EmptyString => true
  | String a head' => Ascii.eqb a "/" && all_sep head'
  end.

(** [head.rstrip('/')] *)
Fixpoint rstrip_sep (head : string) : string :=
  match head with
  | EmptyString => EmptyString
  | String a head' =>
      match rstrip_sep head' with
      | EmptyString =>
          if Ascii.eqb a "/" then EmptyString else String a EmptyString
      | r => String a r
      end
  end.

(** [os.path.basename(p)] *)
Definition basename (p : string) : string :=
  Py.drop (after_last "/" p) p.

(** The end of [os.path.dirname]: a head that is not made of separators
    only loses its trailing separators. *)
Definition strip_head (head : string) : string :=
  if truthy head && negb (all_sep head) then rstrip_sep head else head.

(** [os.path.dirname(p)] *)
Definition dirname (p : string) : string :=
  strip_head (take (after_last "/" p) p).

(** Some character of [s] is not a dot. *)
Fixpoint has_non_dot (s : string) : bool :=
  match s with
  | EmptyString => false
  | String a s' => negb (Ascii.eqb a ".") || has_non_dot s'
  end.

(** [os.path.splitext(p)]: the extension starts at the last dot, when that
    dot comes after the last separator and after a character of the file name
    that is not a dot. *)
Definition splitext (p : string) : string * string :=
  let sep1 := after_last "/" p in
  let dot1 := after_last "." p in
  if (sep1 <? dot1) && has_non_dot (take (dot1 - 1 - sep1) (Py.drop sep1 p))
  then (take (dot1 - 1) p, Py.drop (dot1 - 1) p)
  else (p, EmptyString).

(** [os.path.join(a, b)] *)
Definition join (a b : string) : string :=
  if String.prefix "/" b then b
  else if negb (truthy a) || Py.endswith a "/" then a +:+ b
  else a +:+ "/" +:+ b.

End OsPath.

(** ** [get_prompt] *)

(** What [get_prompt] gives: the one user message, whose text names the
    workbook, the TOML file and the output path, or the exception raised. *)
Inductive PromptResult : Type :=
| PromptMessage (workbook toml output_file_path : string)
| KeyError (key : string)
    (* arguments[key] with no such key *)
| ValueError_prompt (name : string).
    (* Unknown prompt: {name} *)

(** The default output path; [timestamp] is what
    [datetime.now().strftime("%Y%m%d_%H%M%S")] returns. *)
Definition default_output_path (timestamp workbook_path : string) : string :=
  let base_name := OsPath.basename workbook_path in
  let name_without_ext := fst (OsPath.splitext base_name) in
  let output_dir := OsPath.dirname workbook_path in
  OsPath.join output_dir
    (name_without_ext +:+ "_remapped_" +:+ timestamp +:+ ".twb").

Definition get_prompt (timestamp name : string)
    (arguments : gmap string string) : PromptResult :=
  if decide (name = "remap_dimensions_from_toml") then
    let given := default EmptyString (arguments !! "Output File Path") in
    match (if truthy given then inr given
           else match arguments !! "Workbook File Path" with
                | None => inl "Workbook File Path"
                | Some workbook_path =>
                    inr (default_output_path timestamp workbook_path)
                end) with
    | inl key => KeyError key
    | inr output_file_path =>
        match arguments !! "Workbook File Path" with
        | None => KeyError "Workbook File Path"
        | Some workbook =>
            match arguments !! "Remapping TOML Path" with
            | None => KeyError "Remapping TOML Path"
            | Some toml => PromptMessage workbook toml output_file_path
            end
        end
    end
  else ValueError_prompt name.

(** ** Proof steps for the handlers *)

(** One case per tool of a list. *)
Ltac each_tool H :=
  repeat (apply elem_of_cons in H as [->|H]);
  [..|by apply not_elem_of_nil in H].

(** Cases on the arguments a handler looks up. *)
Ltac lookups :=
  repeat match goal with
    | |- context [?m !! ?k] =>
        lazymatch type of m with
        | gmap string string =>
            let o := fresh "o" in
            let E := fresh "E" in
            destruct (m !! k) as [o|] eqn:E
        end
    end.

(** Cases on the answers of the file system while running a handler. *)
Ltac step_run :=
  repeat first
    [ progress cbn [run fst snd negb]
    | match goal with
      | |- context [fs_csv ?w ?p] => destruct (fs_csv w p)
      | |- context [fs_read ?w ?p] => destruct (fs_read w p)
      | |- context [fs_soup ?w ?p] => destruct (fs_soup w p)
      | |- context [fs_makedirs ?w ?p] =>
          destruct (fs_makedirs w p) as [? [?|]]
      | |- context [fs_write ?w ?p ?c] =>
          destruct (fs_write w p c) as [? [?|]]
      | |- context [if ?b then _ else _] => destruct b
      end ].

(** ** Concrete inputs

    A small file system on which the handlers are run. *)

Definition sample_fs : MemFS :=
  {| csv_files :=
       {[ "rules.csv" := [["Foo"; "Bar"]];
          "chain.csv" := [["A"; "B"]; ["B"; "C"]];
          "short.csv" := [["only"]; []];
          "mixed.csv" := [["a"; "b"]; [" c "; "d "]; ["e"]; ["f"; "g"; "h"]] ]};
     text_files := {[ "in/book.twb" := "Baz"; "in/a.twb" := "A" ]};
     soups := ∅ |}.

Definition leaf (name : string) (attrs : gmap string string) : Tag :=
  mkTag name attrs [].

(** A workbook with a repeated column and a repeated worksheet name. *)
Definition sample_soup : Tag :=
  mkTag "[document]" ∅
    [mkTag "workbook" {[ "version" := "18.1" ]}
       [mkTag "datasources" ∅
          [mkTag "datasource" {[ "name" := "Sales" ]}
             [mkTag "column" {[ "name" := "Revenue" ]}
                [leaf "calculation" {[ "formula" := "SUM([Amount])" ]}];
              leaf "column" {[ "name" := "Region North" ]};
              leaf "column" {[ "name" := "Revenue" ]};
              leaf "column" {[ "caption" := "unnamed" ]};
              leaf "column" {[ "name" := "Region South" ]};
              leaf "column" {[ "name" := "Profit" ]}]];
        mkTag "worksheets" ∅
          [leaf "worksheet" {[ "name" := "Sheet 1" ]};
           leaf "worksheet" {[ "name" := "Sheet 1" ]};
           leaf "worksheet" {[ "name" := "Sheet 2" ]}]]].

Definition sample_arguments (mapping_file_path workbook_file_path : string)
    : gmap string string :=
  {[ "mapping_file_path" := mapping_file_path;
     "workbook_file_path" := workbook_file_path;
     "output_file_path" := "out/book.twb" ]}.

(** ** Facts about the string methods *)

Example count_ex1 : Py.count "aaa" "aa" = 1. Proof. reflexivity. Qed.
Example count_ex2 : Py.count "abc" "" = 4. Proof. reflexivity. Qed.
Example replace_ex1 : Py.replace "aaa" "aa" "b" = "ba". Proof. reflexivity. Qed.
Example replace_ex2 : Py.replace "ab" "" "-" = "-a-b-". Proof. reflexivity. Qed.
Example replace_ex3 : Py.replace "xAByABz" "AB" "" = "xyz".
Proof. reflexivity. Qed.
Example split_ex1 : Py.split "  Region  North " = ["Region"; "North"].
Proof. reflexivity. Qed.
Example strip_ex1 : Py.strip "  a b  " = "a b". Proof. reflexivity. Qed.
Example lower_ex1 : Py.lower "BOOK.TWB" = "book.twb". Proof. reflexivity. Qed.
Example endswith_ex1 : Py.endswith "book.twb" ".twb" = true.
Proof. reflexivity. Qed.
Example endswith_ex2 : Py.endswith "twb" ".twb" = false.
Proof. reflexivity. Qed.

Lemma count_go_zero_replace_go sub new s :
  Py.count_go sub 0 s = 0 -> Py.replace_go sub new 0 s = s.
Proof.
  induction s as [|c s IH]; cbn [Py.count_go Py.replace_go]; [done|].
  destruct (String.prefix sub (String c s)); [done|].
  intros Hz. by rewrite IH.
Qed.

(** Replacing a string that does not occur changes nothing. *)
Lemma count_zero_replace s old new :
  Py.count s old = 0 -> Py.replace s old new = s.
Proof.
  destruct old as [|c old]; [done|].
  apply count_go_zero_replace_go.
Qed.

Lemma string_app_cons c s t : String c s +:+ t = String c (s +:+ t).
Proof. reflexivity. Qed.

Lemma string_length_app s t :
  String.length (s +:+ t) = String.length s + String.length t.
Proof.
  induction s as [|c s IH]; [done|].
  rewrite string_app_cons. cbn [String.length]. by rewrite IH.
Qed.

Lemma prefix_length old s :
  String.prefix old s = true -> String.length old <= String.length s.
Proof.
  revert s. induction old as [|a old IH]; intros s; [cbn; lia|].
  destruct s as [|b s]; [done|]. cbn.
  destruct (ascii_dec a b); [|done].
  intros H%IH. lia.
Qed.

(** [replace] rewrites exactly the occurrences that [count] counts: each one
    trades the length of [old] for the length of [new]. *)
Lemma replace_go_length old new skip s :
  old ≠ EmptyString ->
  String.length (Py.replace_go old new skip s)
  + Py.count_go old skip s * String.length old
  + Nat.min skip (String.length s)
  = String.length s + Py.count_go old skip s * String.length new.
Proof.
  intros Hold. revert skip.
  induction s as [|c s IH]; intros skip.
  - cbn. lia.
  - cbn [Py.replace_go Py.count_go]. destruct skip as [|k].
    + destruct (String.prefix old (String c s)) eqn:Hp.
      * apply prefix_length in Hp. cbn [String.length] in Hp.
        assert (0 < String.length old) by (destruct old; [done|cbn; lia]).
        specialize (IH (String.length old - 1)).
        rewrite string_length_app. cbn [String.length].
        rewrite !Nat.mul_succ_l. lia.
      * specialize (IH 0). cbn [String.length]. cbn in IH. lia.
    + specialize (IH k). cbn [String.length]. lia.
Qed.

Lemma replace_length s old new :
  old ≠ EmptyString ->
  String.length (Py.replace s old new) + Py.count s old * String.length old
  = String.length s + Py.count s old * String.length new.
Proof.
  intros Hold. pose proof (replace_go_length old new 0 s Hold) as Hlen.
  destruct old as [|c old]; [done|]. cbn [Py.replace Py.count].
  cbn [Nat.min] in Hlen. lia.
Qed.

(** ** The replacement loop *)

Lemma replace_step_unfold st old new :
  replace_step st (old, new) =
  let n := Py.count (modified_content st) old in
  {| modified_content := Py.replace (modified_content st) old new;
     replacements_made := replacements_made st + n;
     replacements_by_mapping :=
       if 0 <? n then <[old := n]> (replacements_by_mapping st)
       else replacements_by_mapping st |}.
Proof.
  unfold replace_step. cbn zeta.
  destruct (Py.count (modified_content st) old) as [|n] eqn:Hn; [|done].
  cbn [Nat.ltb Nat.leb]. rewrite count_zero_replace by done.
  destruct st; cbn. f_equal. lia.
Qed.

Lemma replace_step_zero st old new :
  Py.count (modified_content st) old = 0 -> replace_step st (old, new) = st.
Proof. intros Hz. unfold replace_step. by rewrite Hz. Qed.

Lemma apply_replacements_snoc before m text :
  apply_replacements (before ++ [m]) text =
  replace_step (apply_replacements before text) m.
Proof. unfold apply_replacements. by rewrite fold_left_app. Qed.

Lemma spec_apply_snoc before m text :
  spec_apply (before ++ [m]) text = spec_step (spec_apply before text) m.
Proof. unfold spec_apply. by rewrite fold_left_app. Qed.

(** The text evolves as the specification says, whatever the counts. *)
Lemma modified_content_spec mappings text :
  modified_content (apply_replacements mappings text) =
  fst (spec_apply mappings text).
Proof.
  induction mappings as [|[old new] before IH] using rev_ind; [done|].
  rewrite apply_replacements_snoc, spec_apply_snoc, replace_step_unfold.
  cbn. rewrite IH. by destruct (spec_apply before text).
Qed.

(** The keys of the report are originals of the rules. *)
Lemma report_keys mappings text old :
  is_Some (replacements_by_mapping (apply_replacements mappings text) !! old) ->
  old ∈ map fst mappings.
Proof.
  induction mappings as [|[o n] before IH] using rev_ind.
  - cbn. rewrite lookup_empty. by intros [? ?].
  - rewrite apply_replacements_snoc, replace_step_unfold, map_app.
    cbv zeta. intros Hs. apply elem_of_app.
    destruct (Py.count _ o) as [|k]; cbn in Hs; [by left; apply IH|].
    destruct (decide (o = old)) as [->|Hne].
    + right. apply list_elem_of_singleton. done.
    + left. apply IH. by rewrite lookup_insert_ne in Hs.
Qed.

(** When no rule matches, nothing happens. *)
Lemma apply_replacements_no_match mappings text :
  Forall (fun m => Py.count text (fst m) = 0) mappings ->
  apply_replacements mappings text =
  {| modified_content := text; replacements_made := 0;
     replacements_by_mapping := ∅ |}.
Proof.
  induction mappings as [|[old new] before IH] using rev_ind; [done|].
  intros [Hb Hm]%Forall_app. rewrite apply_replacements_snoc, IH by done.
  apply replace_step_zero. cbn. by inversion Hm.
Qed.

Lemma report_sum_insert (report : gmap string nat) old n :
  report !! old = None ->
  report_sum (<[old := n]> report) = n + report_sum report.
Proof.
  intros Hnone. unfold report_sum.
  rewrite map_fold_insert_L; [done| |done].
  intros; lia.
Qed.

Lemma details_insert_fresh before (report : gmap string nat) old n :
  old ∉ map fst before ->
  replacements_details before (<[old := n]> report) =
  replacements_details before report.
Proof.
  unfold replacements_details.
  induction before as [|[o r] before IH]; [done|].
  cbn [map fst snd]. intros [Hne Hnot]%not_elem_of_cons.
  rewrite lookup_insert_ne by done. by rewrite IH.
Qed.

Lemma details_snoc before m (report : gmap string nat) :
  replacements_details (before ++ [m]) report =
  replacements_details before report
    ++ [(fst m, snd m, default 0 (report !! fst m))].
Proof. unfold replacements_details. by rewrite map_app. Qed.

Lemma details_sum_snoc (l : list (string * string * nat)) d :
  sum_list_with snd (l ++ [d]) = sum_list_with snd l + snd d.
Proof. rewrite sum_list_with_app. cbn. lia. Qed.

(** A positive count recorded by the specification's algorithm is the count
    the loop has recorded. *)
Lemma positive_counts_agree mappings text k c :
  snd (spec_apply mappings text) !! k = Some (S c) ->
  replacements_by_mapping (apply_replacements mappings text) !! k = Some (S c).
Proof.
  revert k c. induction mappings as [|[old new] before IH] using rev_ind;
    intros k c.
  - cbn. by rewrite lookup_empty.
  - rewrite apply_replacements_snoc, spec_apply_snoc, replace_step_unfold.
    pose proof (modified_content_spec before text) as Htext.
    destruct (spec_apply before text) as [cur report] eqn:Hspec.
    cbn in Htext. subst cur. cbn [spec_step fst snd replacements_by_mapping].
    cbv zeta. destruct (decide (old = k)) as [->|Hne].
    + rewrite lookup_insert_eq. intros [= ->].
      cbn [Nat.ltb Nat.leb]. by rewrite lookup_insert_eq.
    + rewrite lookup_insert_ne by done. intros Hk%IH.
      destruct (0 <? _); [by rewrite lookup_insert_ne|done].
Qed.

(** ** Properties of the mapping application engine *)

(** C1 (as amended): the rules are processed in file order over one evolving
    text. Each rule's occurrences are counted in the current text, the text
    left by the rules before it, and every occurrence is replaced; the count
    is added to the total, and it is recorded under the rule's original only
    when it is positive. The rewritten text is the one the specification's
    algorithm gives, every positive count that algorithm records is in the
    report, and rules [("A","B"); ("B","C")] turn "A" into "C" with the
    report {"A": 1, "B": 1}. *)
Theorem C1_rules_in_order_over_evolving_text :
  (forall before old new after text,
      let st := apply_replacements before text in
      let n := Py.count (modified_content st) old in
      apply_replacements (before ++ (old, new) :: after) text =
      fold_left replace_step after
        {| modified_content := Py.replace (modified_content st) old new;
           replacements_made := replacements_made st + n;
           replacements_by_mapping :=
             if 0 <? n then <[old := n]> (replacements_by_mapping st)
             else replacements_by_mapping st |})
  /\ (forall mappings text,
         modified_content (apply_replacements mappings text) =
         fst (spec_apply mappings text))
  /\ (forall mappings text original n,
         snd (spec_apply mappings text) !! original = Some (S n) ->
         replacements_by_mapping (apply_replacements mappings text) !! original
         = Some (S n))
  /\ modified_content (apply_replacements [("A", "B"); ("B", "C")] "A") = "C"
  /\ replacements_by_mapping (apply_replacements [("A", "B"); ("B", "C")] "A")
     = <["A" := 1]> (<["B" := 1]> ∅)
  /\ run sample_fs
       (call_tool "remap_dimensions" (sample_arguments "chain.csv" "in/a.twb"))
     = (Text (Remapped 2 [("A", "B"); ("B", "C")]
                [("A", "B", 1); ("B", "C", 1)] 2 "out/book.twb"),
        {| csv_files := csv_files sample_fs;
           text_files := <["out/book.twb" := "C"]> (text_files sample_fs);
           soups := soups sample_fs |}).
Proof.
  split; [|split; [apply modified_content_spec|]].
  2: split; [apply positive_counts_agree|]; split; [|split]; by vm_compute.
  - intros before old new after text. cbv zeta.
    rewrite <- replace_step_unfold.
    unfold apply_replacements. by rewrite fold_left_app.
Qed.

Lemma C1_rules_in_order_over_evolving_text_witness :
  replacements_by_mapping (apply_replacements [("A", "B"); ("B", "C")] "A")
    !! "B" = Some 1.
Proof.
  apply (proj1 (proj2 (proj2 C1_rules_in_order_over_evolving_text))).
  reflexivity.
Defined.

(** C1 as stated fails: with rules [("A","B"); ("A","C")] and text "A" the
    second rule finds no "A" in the current text "B", yet the report keeps 1
    under "A", where recording every count leaves 0. *)
Lemma C1_zero_count_not_recorded :
  let mappings := [("A", "B"); ("A", "C")] in
  Py.count (modified_content (apply_replacements [("A", "B")] "A")) "A" = 0
  /\ replacements_by_mapping (apply_replacements mappings "A") !! "A" = Some 1
  /\ snd (spec_apply mappings "A") !! "A" = Some 0
  /\ replacements_by_mapping (apply_replacements mappings "A")
     <> snd (spec_apply mappings "A").
Proof.
  cbv zeta. split; [|split; [|split]]; [by vm_compute..|].
  intros Heq. apply (f_equal (fun m : gmap string nat => m !! "A")) in Heq.
  vm_compute in Heq. discriminate.
Qed.

(** The dispatch of [call_tool] on the names of the tools. *)
Lemma call_tool_remap arguments :
  call_tool "remap_dimensions" arguments = remap_dimensions arguments.
Proof. reflexivity. Qed.

Lemma call_tool_validate_mapping arguments :
  call_tool "validate_mapping_file" arguments = validate_mapping_file arguments.
Proof. reflexivity. Qed.

Lemma call_tool_validate_workbook arguments :
  call_tool "validate_tableau_workbook" arguments
  = validate_tableau_workbook arguments.
Proof. reflexivity. Qed.

Lemma load_rows_from rows mappings :
  fold_left
    (fun mappings row =>
       if 2 <=? length row then mappings ++ [row_pair row] else mappings)
    rows mappings
  = mappings ++ map row_pair (filter (fun row => 2 <= length row) rows).
Proof.
  revert mappings. induction rows as [|row rows IH]; intros mappings.
  - cbn. by rewrite app_nil_r.
  - cbn [fold_left]. rewrite filter_cons, IH.
    destruct (Nat.leb_spec 2 (length row)).
    + rewrite decide_True by done. cbn [map]. by rewrite <- app_assoc.
    + rewrite decide_False by lia. done.
Qed.

(** The loader of [remap_dimensions] keeps the rows with two columns. *)
Lemma load_rows_filter rows :
  load_rows rows = map row_pair (filter (fun row => 2 <= length row) rows).
Proof. unfold load_rows. by rewrite load_rows_from. Qed.

Lemma load_rows_all_short rows :
  Forall (fun row => length row < 2) rows -> load_rows rows = [].
Proof.
  intros Hshort. rewrite load_rows_filter.
  induction Hshort as [|row rows Hrow _ IH]; [done|].
  rewrite filter_cons, decide_False by lia. done.
Qed.

(** What [remap_dimensions] does once its three arguments are read. *)
Lemma run_remap_dimensions {W} `{FileSystem W} (w : W) arguments
    mapping_file_path workbook_file_path output_file_path rows :
  arguments !! "mapping_file_path" = Some mapping_file_path ->
  arguments !! "workbook_file_path" = Some workbook_file_path ->
  arguments !! "output_file_path" = Some output_file_path ->
  fs_csv w mapping_file_path = Got rows ->
  run w (call_tool "remap_dimensions" arguments) =
  run w (remap_mappings (load_rows rows) workbook_file_path output_file_path).
Proof.
  intros Hm Hw Ho Hcsv. rewrite call_tool_remap. unfold remap_dimensions.
  rewrite Hm, Hw, Ho. cbn [run]. by rewrite Hcsv.
Qed.

(** C2 (as amended): a rule whose original does not occur in the current
    text adds nothing to the total, leaves the text as it is and adds no key
    to the report; every rule is still listed in the replacement details, in
    order, with count 0 when the report has no entry for its original. When
    no rule matches anywhere the operation succeeds: the text written is the
    input, the total is 0, the report is empty and every rule is listed with
    count 0. *)
Theorem C2_unmatched_rule_counts_zero :
  (forall before old new text,
      Py.count (modified_content (apply_replacements before text)) old = 0 ->
      apply_replacements (before ++ [(old, new)]) text
      = apply_replacements before text)
  /\ (forall mappings (report : gmap string nat),
         map (fun d => (fst (fst d), snd (fst d)))
             (replacements_details mappings report) = mappings
         /\ forall old new,
              (old, new) ∈ mappings -> report !! old = None ->
              (old, new, 0) ∈ replacements_details mappings report)
  /\ (forall W (FS : FileSystem W) (w w1 w2 : W) arguments
             mapping_file_path workbook_file_path output_file_path rows text,
         arguments !! "mapping_file_path" = Some mapping_file_path ->
         arguments !! "workbook_file_path" = Some workbook_file_path ->
         arguments !! "output_file_path" = Some output_file_path ->
         fs_csv w mapping_file_path = Got rows ->
         load_rows rows <> [] ->
         fs_read w workbook_file_path = Got text ->
         Forall (fun m => Py.count text (fst m) = 0) (load_rows rows) ->
         fs_makedirs w output_file_path = (w1, None) ->
         fs_write w1 output_file_path text = (w2, None) ->
         apply_replacements (load_rows rows) text
         = {| modified_content := text; replacements_made := 0;
              replacements_by_mapping := ∅ |}
         /\ run w (call_tool "remap_dimensions" arguments)
            = (Text (Remapped 0 (load_rows rows)
                       (map (fun m => (fst m, snd m, 0)) (load_rows rows))
                       0 output_file_path), w2)).
Proof.
  split; [|split].
  - intros before old new text Hz.
    rewrite apply_replacements_snoc. by apply replace_step_zero.
  - intros mappings report. split.
    + unfold replacements_details. rewrite map_map. cbn.
      induction mappings as [|[o n] mappings IH]; [done|].
      cbn. by rewrite IH.
    + intros old new Hin Hnone. unfold replacements_details.
      apply list_elem_of_fmap. exists (old, new). cbn. by rewrite Hnone.
  - intros W FS w w1 w2 arguments mp wp out rows text
           Hm Hw Ho Hcsv Hne Hread Hno Hmk Hwr.
    pose proof (apply_replacements_no_match _ _ Hno) as Hst.
    split; [done|].
    rewrite (run_remap_dimensions w arguments mp wp out rows) by done.
    unfold remap_mappings. destruct (load_rows rows) as [|m ms] eqn:Hl; [done|].
    cbn [run]. rewrite Hread. unfold remap_content. rewrite Hst.
    cbn [run modified_content replacements_made replacements_by_mapping].
    rewrite Hmk. cbn [run]. rewrite Hwr. cbn [run].
    done.
Qed.

(** C2 as stated fails: with rules [("B","x"); ("A","B"); ("B","C")] and text
    "A" the first rule finds no "B", yet the report has 1 under "B" and the
    details list the first rule with count 1. *)
Lemma C2_unmatched_rule_listed_with_one :
  let mappings := [("B", "x"); ("A", "B"); ("B", "C")] in
  let st := apply_replacements mappings "A" in
  Py.count "A" "B" = 0
  /\ replacements_by_mapping st !! "B" = Some 1
  /\ replacements_details mappings (replacements_by_mapping st)
     = [("B", "x", 1); ("A", "B", 1); ("B", "C", 1)]
  /\ replacements_by_mapping (apply_replacements [("Foo", "Bar")] "Baz")
       !! "Foo" = None.
Proof. cbv zeta. split; [|split; [|split]]; by vm_compute. Qed.

Lemma C2_unmatched_rule_counts_zero_witness :
  apply_replacements ([] ++ [("Foo", "Bar")]) "Baz"
  = apply_replacements [] "Baz"
  /\ ("Foo", "Bar", 0) ∈ replacements_details [("Foo", "Bar")] ∅
  /\ run sample_fs
       (call_tool "remap_dimensions"
          (sample_arguments "rules.csv" "in/book.twb"))
     = (Text (Remapped 0 [("Foo", "Bar")] [("Foo", "Bar", 0)] 0 "out/book.twb"),
        fst (fs_write sample_fs "out/book.twb" "Baz")).
Proof.
  destruct C2_unmatched_rule_counts_zero as (Hrule & Hlisted & Hnone).
  split; [|split].
  - apply Hrule. reflexivity.
  - apply Hlisted; [apply list_elem_of_here | reflexivity].
  - apply (Hnone MemFS _ sample_fs sample_fs _
             (sample_arguments "rules.csv" "in/book.twb") "rules.csv"
             "in/book.twb" "out/book.twb" [["Foo"; "Bar"]] "Baz");
      try reflexivity.
    + discriminate.
    + repeat constructor.
Defined.

(** C3 (as amended): when no two rules share the same original, the counts
    of the replacement report add up to the total number of replacements, and
    so do the counts listed in the replacement details. *)
Theorem C3_report_sum_is_total mappings text :
  NoDup (map fst mappings) ->
  let st := apply_replacements mappings text in
  report_sum (replacements_by_mapping st) = replacements_made st
  /\ sum_list_with snd
       (replacements_details mappings (replacements_by_mapping st))
     = replacements_made st.
Proof.
  revert text.
  induction mappings as [|[old new] before IH] using rev_ind;
    intros text; [done|].
  rewrite map_app. cbn [map fst].
  intros (Hnd & Hfresh & _)%NoDup_app.
  destruct (IH text Hnd) as [IH1 IH2]. clear IH. cbv zeta.
  assert (replacements_by_mapping (apply_replacements before text) !! old
          = None) as Hnone.
  { apply eq_None_not_Some. intros Hs%report_keys.
    apply (Hfresh old Hs), list_elem_of_singleton. done. }
  assert (old ∉ map fst before) as Hnot.
  { intros Hin. apply (Hfresh old Hin), list_elem_of_singleton. done. }
  rewrite apply_replacements_snoc, replace_step_unfold, details_snoc.
  cbv zeta. cbn [replacements_made replacements_by_mapping fst snd].
  rewrite details_sum_snoc. cbn [snd].
  destruct (Py.count _ old) as [|k]; cbn [Nat.ltb Nat.leb].
  - rewrite Hnone. cbn [from_option]. split; lia.
  - rewrite report_sum_insert, details_insert_fresh, lookup_insert_eq by done.
    cbn [from_option]. unfold id. split; lia.
Qed.

Lemma C3_report_sum_is_total_witness :
  let st := apply_replacements [("A", "B"); ("B", "C")] "A" in
  report_sum (replacements_by_mapping st) = replacements_made st
  /\ sum_list_with snd
       (replacements_details [("A", "B"); ("B", "C")]
          (replacements_by_mapping st))
     = replacements_made st.
Proof.
  apply (C3_report_sum_is_total [("A", "B"); ("B", "C")] "A").
  compute_done.
Defined.

(** C3 as stated fails when two rules share an original: with rules
    [("A","AA"); ("A","B")] and text "A" the total is 3 while the report
    holds 2 and the details list 2 and 2. *)
Lemma C3_shared_original_breaks_sum :
  let mappings := [("A", "AA"); ("A", "B")] in
  let st := apply_replacements mappings "A" in
  replacements_made st = 3
  /\ report_sum (replacements_by_mapping st) = 2
  /\ sum_list_with snd
       (replacements_details mappings (replacements_by_mapping st)) = 4
  /\ report_sum (replacements_by_mapping st) <> replacements_made st.
Proof. cbv zeta. split; [|split; [|split]]; by vm_compute. Qed.

(** C4: when the mapping file gives no usable rule, whatever the workbook
    holds, [remap_dimensions] answers "Mapping file is empty"; after the
    mapping file it asks nothing more of the file system, so the workbook is
    not read, nothing is rewritten and no output file is written. *)
Theorem C4_empty_mapping_set W (FS : FileSystem W) (w : W) arguments
    mapping_file_path workbook_file_path output_file_path rows :
  arguments !! "mapping_file_path" = Some mapping_file_path ->
  arguments !! "workbook_file_path" = Some workbook_file_path ->
  arguments !! "output_file_path" = Some output_file_path ->
  fs_csv w mapping_file_path = Got rows ->
  Forall (fun row => length row < 2) rows ->
  remap_mappings (load_rows rows) workbook_file_path output_file_path
  = Ret (Text ErrMappingEmpty)
  /\ run w (call_tool "remap_dimensions" arguments) = (Text ErrMappingEmpty, w).
Proof.
  intros Hm Hw Ho Hcsv Hshort.
  rewrite (run_remap_dimensions w arguments _ _ _ rows) by done.
  rewrite load_rows_all_short by done. done.
Qed.

Lemma C4_empty_mapping_set_witness :
  remap_mappings (load_rows [["only"]; []]) "in/book.twb" "out/book.twb"
  = Ret (Text ErrMappingEmpty)
  /\ run sample_fs
       (call_tool "remap_dimensions"
          (sample_arguments "short.csv" "in/book.twb"))
     = (Text ErrMappingEmpty, sample_fs).
Proof.
  apply (C4_empty_mapping_set MemFS _ sample_fs
           (sample_arguments "short.csv" "in/book.twb") "short.csv"
           "in/book.twb" "out/book.twb" [["only"]; []]);
    try reflexivity.
  repeat constructor.
Defined.

(** ** Properties of the mapping loaders *)

(** The strict loop stops at the first short row, with its line number. *)
Lemma validate_rows_short i mappings pre short post :
  Forall (fun row => 2 <= length row) pre ->
  length short < 2 ->
  validate_rows i mappings (pre ++ short :: post) = inl (i + length pre + 1).
Proof.
  intros Hpre Hshort. revert i mappings.
  induction Hpre as [|row pre Hrow _ IH]; intros i mappings.
  - cbn [app validate_rows length].
    destruct (Nat.ltb_spec (length short) 2); [f_equal; lia | lia].
  - cbn [app validate_rows length].
    destruct (Nat.ltb_spec (length row) 2); [lia|].
    rewrite IH. f_equal. lia.
Qed.

(** When the strict loop ends, it has collected every row. *)
Lemma validate_rows_done i mappings rows result :
  validate_rows i mappings rows = inr result ->
  result = mappings ++ map row_pair rows.
Proof.
  revert i mappings. induction rows as [|row rows IH]; intros i mappings.
  - cbn. intros [= <-]. by rewrite app_nil_r.
  - cbn [validate_rows map]. destruct (length row <? 2); [done|].
    intros ->%IH. by rewrite <- app_assoc.
Qed.

(** C5: a row with fewer than two columns makes [validate_mapping_file] stop
    with the 1-based line number of the first such row, while the loader of
    [remap_dimensions] passes over every such row and goes on with the rules
    of the other rows; a one-column row on line 3 gives "Line 3" on the one
    side and is left out on the other. *)
Theorem C5_strict_validation_lenient_application :
  (forall W (FS : FileSystem W) (w : W) arguments path pre short post,
      arguments !! "mapping_file_path" = Some path ->
      Py.endswith (Py.lower path) ".csv" = true ->
      fs_csv w path = Got (pre ++ short :: post) ->
      Forall (fun row => 2 <= length row) pre ->
      length short < 2 ->
      run w (call_tool "validate_mapping_file" arguments)
      = (Text (ErrLine (S (length pre))), w))
  /\ (forall W (FS : FileSystem W) (w : W) arguments
             mapping_file_path workbook_file_path output_file_path rows,
         arguments !! "mapping_file_path" = Some mapping_file_path ->
         arguments !! "workbook_file_path" = Some workbook_file_path ->
         arguments !! "output_file_path" = Some output_file_path ->
         fs_csv w mapping_file_path = Got rows ->
         load_rows rows
         = map row_pair (filter (fun row => 2 <= length row) rows)
         /\ run w (call_tool "remap_dimensions" arguments)
            = run w (remap_mappings
                       (map row_pair (filter (fun row => 2 <= length row) rows))
                       workbook_file_path output_file_path))
  /\ validated_mapping (Got [["a"; "b"]; ["c"; "d"]; ["e"]; ["f"; "g"]])
     = ErrLine 3
  /\ load_rows [["a"; "b"]; ["c"; "d"]; ["e"]; ["f"; "g"]]
     = [("a", "b"); ("c", "d"); ("f", "g")].
Proof.
  split; [|split; [|split]]; [| |reflexivity..].
  - intros W FS w arguments path pre short post Harg Hext Hcsv Hpre Hshort.
    rewrite call_tool_validate_mapping. unfold validate_mapping_file.
    rewrite Harg, Hext. cbn [negb run]. rewrite Hcsv.
    unfold validated_mapping. rewrite validate_rows_short by done.
    do 3 f_equal. lia.
  - intros W FS w arguments mp wp out rows Hm Hw Ho Hcsv.
    split; [apply load_rows_filter|].
    rewrite (run_remap_dimensions w arguments mp wp out rows) by done.
    by rewrite load_rows_filter.
Qed.

Lemma C5_strict_validation_lenient_application_witness :
  run sample_fs
    (call_tool "validate_mapping_file"
       (sample_arguments "mixed.csv" "in/book.twb"))
  = (Text (ErrLine 3), sample_fs)
  /\ load_rows [["a"; "b"]; [" c "; "d "]; ["e"]; ["f"; "g"; "h"]]
     = map row_pair [["a"; "b"]; [" c "; "d "]; ["f"; "g"; "h"]].
Proof.
  destruct C5_strict_validation_lenient_application
    as (Hstrict & Hlenient & _).
  split.
  - apply (Hstrict MemFS _ sample_fs
             (sample_arguments "mixed.csv" "in/book.twb") "mixed.csv"
             [["a"; "b"]; [" c "; "d "]] ["e"] [["f"; "g"; "h"]]);
      try reflexivity.
    + repeat constructor.
    + repeat constructor.
  - apply (Hlenient MemFS _ sample_fs
             (sample_arguments "mixed.csv" "in/book.twb") "mixed.csv"
             "in/book.twb" "out/book.twb"); reflexivity.
Defined.

(** Stripping leaves no whitespace at either end. *)
Lemma lstrip_first s c :
  first_char (Py.lstrip s) = Some c -> Py.isspace c = false.
Proof.
  induction s as [|a s IH]; [done|].
  cbn [Py.lstrip]. destruct (Py.isspace a) eqn:Ha; [done|].
  cbn. by intros [= <-].
Qed.

Lemma rstrip_first s c :
  first_char (Py.rstrip s) = Some c -> first_char s = Some c.
Proof.
  destruct s as [|a s]; [done|].
  cbn [Py.rstrip]. destruct (Py.rstrip s); [|done].
  by destruct (Py.isspace a).
Qed.

Lemma rstrip_last s c :
  last_char (Py.rstrip s) = Some c -> Py.isspace c = false.
Proof.
  induction s as [|a s IH]; [done|].
  cbn [Py.rstrip]. destruct (Py.rstrip s) as [|b r].
  - destruct (Py.isspace a) eqn:Ha; [done|]. cbn. by intros [= <-].
  - exact IH.
Qed.

Lemma strip_trimmed s : trimmed (Py.strip s).
Proof.
  intros c [Hc|Hc].
  - apply rstrip_first in Hc. by apply lstrip_first in Hc.
  - by apply rstrip_last in Hc.
Qed.

Lemma row_pair_trimmed row : trimmed_rule (row_pair row).
Proof. split; apply strip_trimmed. Qed.

(** C9 (as amended): in every rule produced by either loader, [original] and
    [replacement] are trimmed of surrounding whitespace. (An original that is
    empty after trimming is kept.) *)
Theorem C9_rules_are_trimmed rows :
  Forall trimmed_rule (load_rows rows)
  /\ forall mappings,
       validated_mapping (Got rows) = MappingValid mappings ->
       Forall trimmed_rule mappings.
Proof.
  split.
  - rewrite load_rows_filter. apply Forall_forall.
    intros m (row & -> & _)%list_elem_of_fmap. apply row_pair_trimmed.
  - intros mappings. unfold validated_mapping.
    destruct (validate_rows 0 [] rows) as [n|result] eqn:Hv; [done|].
    apply validate_rows_done in Hv. cbn in Hv. subst result.
    destruct (map row_pair rows) as [|m ms] eqn:Hmap; [done|].
    intros [= <-]. rewrite <- Hmap. apply Forall_forall.
    intros m' (row & -> & _)%list_elem_of_fmap. apply row_pair_trimmed.
Qed.

Lemma C9_rules_are_trimmed_witness :
  Forall trimmed_rule [("a", "b"); ("c", "d")].
Proof.
  apply (proj2 (C9_rules_are_trimmed [["a "; " b"]; [" c"; "d"; "x"]])).
  reflexivity.
Defined.

(** C9 as stated fails: a row whose first column is blank gives, in both
    loaders, a rule whose original is empty. *)
Lemma C9_blank_original_is_kept :
  load_rows [["  "; "x"]] = [("", "x")]
  /\ validated_mapping (Got [["  "; "x"]]) = MappingValid [("", "x")].
Proof. split; reflexivity. Qed.

(** ** The extension checks *)

Lemma lower_app s t : Py.lower (s +:+ t) = Py.lower s +:+ Py.lower t.
Proof.
  induction s as [|c s IH]; [done|].
  rewrite string_app_cons. cbn [Py.lower].
  by rewrite string_app_cons, IH.
Qed.

Lemma drop_app_length s t : Py.drop (String.length s) (s +:+ t) = t.
Proof.
  induction s as [|c s IH]; [by destruct t|].
  rewrite string_app_cons. exact IH.
Qed.

(** A string ends with whatever was appended to it. *)
Lemma endswith_app s t : Py.endswith (s +:+ t) t = true.
Proof.
  unfold Py.endswith. rewrite string_length_app.
  replace (String.length s + String.length t - String.length t)
    with (String.length s) by lia.
  rewrite drop_app_length, String.eqb_refl.
  apply andb_true_intro. split; [|done]. apply Nat.leb_le. lia.
Qed.

(** C10: the extension checks do not look at case. A path whose lowercased
    form ends with ".twb" (".csv") passes the check of
    [validate_tableau_workbook] ([validate_mapping_file]), which goes on to
    open the file; every other path gets the error text naming the path, as
    a returned text and not an exception, and the file system is not asked
    for anything. Paths that differ only in case are treated alike, any
    spelling of the extension passes, and "BOOK.TWB" is accepted. *)
Theorem C10_extension_checks_ignore_case :
  (forall arguments path,
      arguments !! "workbook_file_path" = Some path ->
      (Py.endswith (Py.lower path) ".twb" = true ->
       call_tool "validate_tableau_workbook" arguments
       = OpenSoup path (fun r => Ret (Text (validated_workbook r))))
      /\ (Py.endswith (Py.lower path) ".twb" = false ->
          call_tool "validate_tableau_workbook" arguments
          = Ret (Text (ErrNotTwb path))
          /\ forall W (FS : FileSystem W) (w : W),
               run w (call_tool "validate_tableau_workbook" arguments)
               = (Text (ErrNotTwb path), w)))
  /\ (forall arguments path,
         arguments !! "mapping_file_path" = Some path ->
         (Py.endswith (Py.lower path) ".csv" = true ->
          call_tool "validate_mapping_file" arguments
          = OpenCsv path (fun r => Ret (Text (validated_mapping r))))
         /\ (Py.endswith (Py.lower path) ".csv" = false ->
             call_tool "validate_mapping_file" arguments
             = Ret (Text (ErrNotCsv path))
             /\ forall W (FS : FileSystem W) (w : W),
                  run w (call_tool "validate_mapping_file" arguments)
                  = (Text (ErrNotCsv path), w)))
  /\ (forall stem ext suffix,
         Py.lower ext = suffix ->
         Py.endswith (Py.lower (stem +:+ ext)) suffix = true)
  /\ (forall path path' suffix,
         Py.lower path = Py.lower path' ->
         Py.endswith (Py.lower path) suffix
         = Py.endswith (Py.lower path') suffix)
  /\ Py.endswith (Py.lower "BOOK.TWB") ".twb" = true.
Proof.
  split; [|split; [|split; [|split]]].
  - intros arguments path Harg.
    rewrite call_tool_validate_workbook. unfold validate_tableau_workbook.
    rewrite Harg. split; intros ->; [done|]. split; done.
  - intros arguments path Harg.
    rewrite call_tool_validate_mapping. unfold validate_mapping_file.
    rewrite Harg. split; intros ->; [done|]. split; done.
  - intros stem ext suffix <-. rewrite lower_app. apply endswith_app.
  - by intros path path' suffix ->.
  - reflexivity.
Qed.

Lemma C10_extension_checks_ignore_case_witness :
  call_tool "validate_tableau_workbook" {[ "workbook_file_path" := "BOOK.TWB" ]}
  = OpenSoup "BOOK.TWB" (fun r => Ret (Text (validated_workbook r)))
  /\ run sample_fs
       (call_tool "validate_tableau_workbook"
          {[ "workbook_file_path" := "book.twbx" ]})
     = (Text (ErrNotTwb "book.twbx"), sample_fs)
  /\ call_tool "validate_mapping_file" {[ "mapping_file_path" := "Rules.CSV" ]}
     = OpenCsv "Rules.CSV" (fun r => Ret (Text (validated_mapping r)))
  /\ run sample_fs
       (call_tool "validate_mapping_file"
          {[ "mapping_file_path" := "rules.txt" ]})
     = (Text (ErrNotCsv "rules.txt"), sample_fs)
  /\ Py.endswith (Py.lower ("Sales" +:+ ".Twb")) ".twb" = true.
Proof.
  destruct C10_extension_checks_ignore_case as (Htwb & Hcsv & Hext & _).
  split; [|split; [|split; [|split]]].
  - apply (Htwb {[ "workbook_file_path" := "BOOK.TWB" ]} "BOOK.TWB");
      reflexivity.
  - apply (Htwb {[ "workbook_file_path" := "book.twbx" ]} "book.twbx");
      reflexivity.
  - apply (Hcsv {[ "mapping_file_path" := "Rules.CSV" ]} "Rules.CSV");
      reflexivity.
  - apply (Hcsv {[ "mapping_file_path" := "rules.txt" ]} "rules.txt");
      reflexivity.
  - apply Hext. reflexivity.
Defined.

(** ** Properties of the analyzer *)

Lemma truthy_spec s : truthy s = true <-> s ≠ "".
Proof.
  unfold truthy. destruct (String.eqb_spec s ""); cbn; split; congruence.
Qed.

Lemma truthy_false s : truthy s = false <-> s = "".
Proof.
  unfold truthy. destruct (String.eqb_spec s ""); cbn; split; congruence.
Qed.

Lemma first_seen_elem l x : x ∈ first_seen l <-> x ∈ l.
Proof.
  induction l as [|y l IH]; [done|].
  cbn [first_seen]. rewrite !elem_of_cons, list_elem_of_filter, IH.
  destruct (decide (x = y)); tauto.
Qed.

Lemma first_seen_NoDup l : NoDup (first_seen l).
Proof.
  induction l as [|y l IH]; [constructor|].
  cbn [first_seen]. apply NoDup_cons. split.
  - rewrite list_elem_of_filter. intros [Hne _]. by apply Hne.
  - by apply NoDup_filter.
Qed.

Lemma first_seen_snoc l x :
  first_seen (l ++ [x]) =
  if decide (x ∈ l) then first_seen l else first_seen l ++ [x].
Proof.
  induction l as [|y l IH].
  - cbn. destruct (decide (x ∈ [])) as [Hin|_]; [|done].
    by apply not_elem_of_nil in Hin.
  - cbn [app first_seen]. rewrite IH. clear IH.
    destruct (decide (x ∈ l)) as [Hin|Hnin];
      destruct (decide (x ∈ y :: l)) as [Hin'|Hnin']; try done.
    + exfalso. apply Hnin'. by apply list_elem_of_further.
    + apply elem_of_cons in Hin' as [->|Hin']; [|done].
      rewrite filter_app, filter_cons_False by (intros Hne; by apply Hne).
      by rewrite filter_nil, app_nil_r.
    + rewrite filter_app, filter_cons_True; [by rewrite filter_nil|].
      intros ->. apply Hnin', list_elem_of_here.
Qed.

(** The loop of [collect_columns] from any state of [columns]. *)
Lemma collect_columns_from (tags : list Tag) (columns : list string) :
  fold_left
    (fun columns column =>
       let name := get column "name" "" in
       if truthy name && negb (bool_decide (name ∈ columns))
       then columns ++ [name] else columns)
    tags columns
  = columns
    ++ filter (fun n => n ∉ columns)
         (first_seen
            (filter (fun n => n ≠ "")
               (map (fun column => get column "name" "") tags))).
Proof.
  revert columns. induction tags as [|t tags IH]; intros columns.
  - cbn. by rewrite app_nil_r.
  - cbn [fold_left map]. rewrite IH. clear IH. cbv zeta.
    set (name := get t "name" "").
    set (names := filter _ (map _ tags)).
    rewrite filter_cons.
    destruct (truthy name) eqn:Ht.
    + apply truthy_spec in Ht. rewrite decide_True by done.
      cbn [first_seen andb]. rewrite filter_cons.
      destruct (decide (name ∈ columns)) as [Hin|Hnin].
      * rewrite bool_decide_true by done. cbn [negb].
        rewrite decide_False by naive_solver.
        rewrite list_filter_filter_l; [done|]. intros x Hx ->. done.
      * rewrite bool_decide_false by done. cbn [negb].
        rewrite decide_True by done.
        rewrite <- app_assoc. cbn [app]. do 2 f_equal.
        rewrite list_filter_filter. apply list_filter_iff.
        intros x. rewrite elem_of_app, list_elem_of_singleton. tauto.
    + apply truthy_false in Ht. rewrite decide_False by naive_solver.
      done.
Qed.

(** C6 (as amended): the analyzer adds the [name] of every [worksheet] tag
    that has a non-empty one, in document order; a name that is already
    present is added again. *)
Theorem C6_worksheets_in_document_order soup :
  collect_worksheets soup
  = filter (fun n => n ≠ "")
      (map (fun worksheet => get worksheet "name" "")
           (find_all "worksheet" soup)).
Proof.
  unfold collect_worksheets.
  enough (forall tags worksheets,
             fold_left
               (fun worksheets worksheet =>
                  let name := get worksheet "name" "" in
                  if truthy name then worksheets ++ [name] else worksheets)
               tags worksheets
             = worksheets
               ++ filter (fun n => n ≠ "")
                    (map (fun worksheet => get worksheet "name" "") tags))
    as Hloop by apply Hloop.
  induction tags as [|t tags IH]; intros worksheets.
  - cbn. by rewrite app_nil_r.
  - cbn [fold_left map]. rewrite IH. clear IH. cbv zeta.
    rewrite filter_cons. destruct (truthy (get t "name" "")) eqn:Ht.
    + apply truthy_spec in Ht. rewrite decide_True by done.
      by rewrite <- app_assoc.
    + apply truthy_false in Ht. rewrite decide_False by naive_solver. done.
Qed.

(** C6 as stated fails: two worksheet tags named "Sheet 1" put the name into
    [worksheets] twice. *)
Lemma C6_repeated_worksheet_listed_twice :
  collect_worksheets sample_soup = ["Sheet 1"; "Sheet 1"; "Sheet 2"]
  /\ ~ NoDup (collect_worksheets sample_soup)
  /\ collect_worksheets sample_soup
     <> first_seen (map (fun worksheet => get worksheet "name" "")
                        (find_all "worksheet" sample_soup)).
Proof.
  assert (collect_worksheets sample_soup = ["Sheet 1"; "Sheet 1"; "Sheet 2"])
    as Heq by (by vm_compute).
  split; [done|]. split.
  - rewrite Heq. intros Hnd. apply NoDup_cons in Hnd as [Hnot _].
    apply Hnot, list_elem_of_here.
  - rewrite Heq. by vm_compute.
Qed.

(** C7: the analyzer's field names are the non-empty [name] attributes of
    the [column] tags, each once, in the order of first appearance; two
    column tags named "Revenue" give "Revenue" once, at its first position. *)
Theorem C7_fields_deduplicated_in_first_seen_order :
  (forall soup,
      let names := map (fun column => get column "name" "")
                       (find_all "column" soup) in
      collect_columns soup = first_seen (filter (fun n => n ≠ "") names)
      /\ NoDup (collect_columns soup)
      /\ forall n, n ∈ collect_columns soup <-> n ≠ "" /\ n ∈ names)
  /\ collect_columns
       (mkTag "[document]" ∅
          [leaf "column" {[ "name" := "Revenue" ]};
           leaf "column" {[ "name" := "Profit" ]};
           leaf "column" {[ "name" := "Revenue" ]}])
     = ["Revenue"; "Profit"]
  /\ collect_columns sample_soup
     = ["Revenue"; "Region North"; "Region South"; "Profit"].
Proof.
  split; [|split; by vm_compute].
  intros soup names.
  assert (collect_columns soup = first_seen (filter (fun n => n ≠ "") names))
    as Heq.
  { unfold collect_columns. rewrite collect_columns_from. cbn [app].
    induction (first_seen _) as [|x l IH]; [done|].
    rewrite filter_cons_True by apply not_elem_of_nil. by rewrite IH. }
  split; [done|]. rewrite Heq. split.
  - apply first_seen_NoDup.
  - intros n. rewrite first_seen_elem, list_elem_of_filter. done.
Qed.

(** *** Pattern detection *)

Lemma prefix_step_spec d column :
  prefix_step d column =
  match cluster_prefix column with
  | Some prefix =>
      if dict_has prefix d then dict_append prefix column d
      else d ++ [(prefix, [column])]
  | None => d
  end.
Proof.
  unfold prefix_step, cluster_prefix.
  by destruct (Py.split column) as [|prefix [|token rest]].
Qed.

Section Groups.

(** A dictionary given by its keys and the group [g] of each. *)
Variable g : string -> list string.

Lemma dict_has_entries prefix keys :
  dict_has prefix (map (fun k => (k, g k)) keys)
  = bool_decide (prefix ∈ keys).
Proof.
  induction keys as [|k keys IH]; [done|].
  cbn [map dict_has]. rewrite IH.
  destruct (String.eqb_spec k prefix) as [->|Hne]; cbn [orb].
  - symmetry. apply bool_decide_true, list_elem_of_here.
  - apply bool_decide_ext. rewrite elem_of_cons.
    split; [by right | intros [Heq|Hin]; [by destruct Hne | done]].
Qed.

Lemma dict_append_entries prefix column keys :
  NoDup keys ->
  dict_append prefix column (map (fun k => (k, g k)) keys)
  = map (fun k => (k, if decide (k = prefix) then g k ++ [column] else g k))
        keys.
Proof.
  induction 1 as [|k keys Hnot Hnd IH]; [done|].
  cbn [map dict_append].
  destruct (String.eqb_spec k prefix) as [->|Hne].
  - rewrite decide_True by done. f_equal.
    apply map_ext_in. intros k Hin%list_elem_of_In.
    rewrite decide_False; [done|]. by intros ->.
  - rewrite decide_False by done. by rewrite IH.
Qed.

End Groups.

Lemma cluster_members_snoc prefix fields field :
  cluster_members prefix (fields ++ [field])
  = cluster_members prefix fields
    ++ (if decide (cluster_prefix field = Some prefix) then [field] else []).
Proof.
  unfold cluster_members. rewrite filter_app, filter_cons, filter_nil. done.
Qed.

Lemma cluster_members_none prefix fields :
  prefix ∉ omap cluster_prefix fields -> cluster_members prefix fields = [].
Proof.
  intros Hnot. unfold cluster_members.
  induction fields as [|f fields IH]; [done|].
  rewrite filter_cons.
  destruct (decide (cluster_prefix f = Some prefix)) as [Hf|_].
  - exfalso. apply Hnot, list_elem_of_omap. exists f.
    split; [apply list_elem_of_here | done].
  - apply IH. intros Hin. apply Hnot.
    apply list_elem_of_omap in Hin as (x & Hx & Hfx).
    apply list_elem_of_omap. exists x.
    split; [by apply list_elem_of_further | done].
Qed.

(** One round of the loop keeps the dictionary equal to the groups of the
    fields read so far. *)
Lemma prefix_step_groups fields field :
  prefix_step (spec_groups fields) field = spec_groups (fields ++ [field]).
Proof.
  rewrite prefix_step_spec. unfold spec_groups.
  rewrite omap_app.
  change (omap cluster_prefix [field])
    with (match cluster_prefix field with Some p => [p] | None => [] end).
  destruct (cluster_prefix field) as [prefix|] eqn:Hfield.
  - rewrite dict_has_entries, first_seen_snoc.
    destruct (decide (prefix ∈ omap cluster_prefix fields)) as [Hin|Hnin].
    + rewrite bool_decide_true by (by apply first_seen_elem).
      rewrite dict_append_entries by apply first_seen_NoDup.
      apply map_ext. intros k. rewrite cluster_members_snoc.
      destruct (decide (k = prefix)) as [->|Hne].
      * by rewrite decide_True.
      * rewrite decide_False by congruence. by rewrite app_nil_r.
    + rewrite bool_decide_false by (by rewrite first_seen_elem).
      rewrite map_app. cbn [map]. rewrite cluster_members_snoc.
      rewrite decide_True by done.
      rewrite cluster_members_none by done. cbn [app]. f_equal.
      apply map_ext_in. intros k Hk%list_elem_of_In.
      apply (proj1 (first_seen_elem _ _)) in Hk.
      assert (cluster_prefix field ≠ Some k) as Hne.
      { rewrite Hfield. intros [= ->]. contradiction. }
      rewrite cluster_members_snoc.
      destruct (decide (cluster_prefix field = Some k)); [done|].
      by rewrite app_nil_r.
  - rewrite app_nil_r. apply map_ext. intros k.
    rewrite cluster_members_snoc.
    destruct (decide (cluster_prefix field = Some k)); [congruence|].
    by rewrite app_nil_r.
Qed.

(** The dictionary built by the loop holds, for each prefix in order of first
    occurrence, the fields that start with it. *)
Lemma prefixed_fields_groups columns :
  prefixed_fields columns = spec_groups columns.
Proof.
  induction columns as [|column columns IH] using rev_ind; [done|].
  unfold prefixed_fields in *. rewrite fold_left_app. cbn [fold_left].
  rewrite IH. apply prefix_step_groups.
Qed.

Lemma cluster_prefix_tokens field prefix :
  cluster_prefix field = Some prefix <->
  exists token rest, Py.split field = prefix :: token :: rest.
Proof.
  unfold cluster_prefix. destruct (Py.split field) as [|p [|token rest]].
  - split; [done|]. by intros (? & ? & ?).
  - split; [done|]. by intros (? & ? & ?).
  - split; [intros [= ->]; eauto|]. by intros (? & ? & [= ->]).
Qed.

(** C8: pattern detection groups every field name of two or more
    whitespace-separated tokens under its first token, prints a prefix only
    when its group has two or more fields, and never puts a single-token
    field name into a group; the fields "Region North", "Region South" and
    "Profit" give the one group "Region" with the two Region fields. *)
Theorem C8_prefix_clusters :
  (forall columns,
      displayed_patterns (prefixed_fields columns) = spec_clusters columns)
  /\ (forall columns prefix fields,
         (prefix, fields) ∈ displayed_patterns (prefixed_fields columns) <->
         prefix ∈ omap cluster_prefix columns
         /\ fields = cluster_members prefix columns
         /\ 2 <= length fields)
  /\ (forall columns prefix field,
         field ∈ cluster_members prefix columns <->
         field ∈ columns
         /\ exists token rest, Py.split field = prefix :: token :: rest)
  /\ (forall columns prefix fields field,
         (prefix, fields) ∈ displayed_patterns (prefixed_fields columns) ->
         length (Py.split field) <= 1 ->
         field ∉ fields)
  /\ displayed_patterns
       (prefixed_fields ["Region North"; "Region South"; "Profit"])
     = [("Region", ["Region North"; "Region South"])].
Proof.
  assert (forall columns prefix fields,
             (prefix, fields) ∈ displayed_patterns (prefixed_fields columns)
             <-> prefix ∈ omap cluster_prefix columns
             /\ fields = cluster_members prefix columns
             /\ 2 <= length fields) as Hshown.
  { intros columns prefix fields. unfold displayed_patterns.
    rewrite prefixed_fields_groups, list_elem_of_filter. unfold spec_groups.
    rewrite list_elem_of_fmap. cbn [snd]. split.
    - intros (Hlen & k & [= -> ->] & Hk).
      apply (proj1 (first_seen_elem _ _)) in Hk. done.
    - intros (Hk & -> & Hlen). split; [done|].
      exists prefix. split; [done|].
      by apply (proj2 (first_seen_elem _ _)). }
  assert (forall columns prefix field,
             field ∈ cluster_members prefix columns <->
             field ∈ columns
             /\ exists token rest, Py.split field = prefix :: token :: rest)
    as Hmember.
  { intros columns prefix field. unfold cluster_members.
    rewrite list_elem_of_filter, cluster_prefix_tokens. tauto. }
  split; [|split; [done|split; [done|split]]].
  - intros columns. unfold displayed_patterns, spec_clusters.
    rewrite prefixed_fields_groups. apply list_filter_iff. intros e. lia.
  - intros columns prefix fields field (_ & -> & _)%Hshown Hone.
    intros (_ & token & rest & Hsplit)%Hmember.
    rewrite Hsplit in Hone. cbn in Hone. lia.
  - by vm_compute.
Qed.

Lemma C8_prefix_clusters_witness :
  ("Region", ["Region North"; "Region South"])
    ∈ displayed_patterns
        (prefixed_fields
           ["Region North"; "Profit"; "Region South"; "Net Sales"])
  /\ "Profit" ∉ ["Region North"; "Region South"].
Proof.
  destruct C8_prefix_clusters as (_ & Hshown & _ & Hsingle & _).
  assert (("Region", ["Region North"; "Region South"])
            ∈ displayed_patterns
                (prefixed_fields
                   ["Region North"; "Profit"; "Region South"; "Net Sales"]))
    as Hin.
  { apply Hshown. split; [|split].
    - apply list_elem_of_here.
    - reflexivity.
    - vm_compute. lia. }
  split; [exact Hin|].
  apply (Hsingle _ _ _ "Profit" Hin). vm_compute. lia.
Defined.

(** ** Further properties of the handlers *)

Example dirname_ex1 : OsPath.dirname "a/b/book.twb" = "a/b".
Proof. reflexivity. Qed.
Example dirname_ex2 : OsPath.dirname "/book.twb" = "/".
Proof. reflexivity. Qed.
Example dirname_ex3 : OsPath.dirname "a//book.twb" = "a".
Proof. reflexivity. Qed.
Example dirname_ex4 : OsPath.dirname "book.twb" = EmptyString.
Proof. reflexivity. Qed.
Example basename_ex1 : OsPath.basename "a/b/book.twb" = "book.twb".
Proof. reflexivity. Qed.
Example splitext_ex1 : OsPath.splitext "book.v2.twb" = ("book.v2", ".twb").
Proof. reflexivity. Qed.
Example splitext_ex2 : OsPath.splitext ".hidden" = (".hidden", EmptyString).
Proof. reflexivity. Qed.
Example splitext_ex3 : OsPath.splitext "a.b/book" = ("a.b/book", EmptyString).
Proof. reflexivity. Qed.
Example splitext_ex4 : OsPath.splitext "..twb" = ("..twb", EmptyString).
Proof. reflexivity. Qed.
Example join_ex1 : OsPath.join "a/b" "c" = "a/b/c".
Proof. reflexivity. Qed.
Example join_ex2 : OsPath.join EmptyString "c" = "c".
Proof. reflexivity. Qed.
Example join_ex3 : OsPath.join "/" "c" = "/c".
Proof. reflexivity. Qed.
Example default_output_path_ex :
  default_output_path "20240102_030405" "reports/Sales.twb"
  = "reports/Sales_remapped_20240102_030405.twb".
Proof. reflexivity. Qed.

(** *** Dispatch, arguments and errors *)

(** X1: [call_tool] raises "Unknown tool" exactly for the names that
    [list_tools] does not list, and then asks nothing of the file system. *)
Theorem X1_unknown_tool_iff_not_listed name arguments :
  call_tool name arguments = Ret (ValueError_unknown name)
  <-> name ∉ map tool_name list_tools.
Proof.
  unfold call_tool. cbn [map list_tools tool_name].
  repeat case_decide; subst;
    try (split;
         [ unfold extract_toml_mappings, validate_mapping_file,
             validate_tableau_workbook, remap_dimensions, analyze_workbook,
             write_file;
           lookups; try done; by case_match
         | intros Hnot; exfalso; apply Hnot;
           repeat first [apply list_elem_of_here
                        | apply list_elem_of_further] ]).
  split; [|done]. intros _ Hin.
  repeat (apply elem_of_cons in Hin as [->|Hin]); try done.
  by apply not_elem_of_nil in Hin.
Qed.

(** X2: for every tool of [list_tools], [call_tool] raises the "missing
    required argument" error, naming the arguments the tool's schema
    requires, exactly when one of those is absent from the call; it does so
    before asking anything of the file system. *)
Theorem X2_missing_argument_iff_schema_required tool arguments :
  tool ∈ list_tools ->
  Exists (fun r => arguments !! r = None) (tool_required tool)
  <-> call_tool (tool_name tool) arguments
      = Ret (ValueError_missing (tool_required tool)).
Proof.
  intros Hin. each_tool Hin; cbn [tool_name tool_required];
    rewrite ?Exists_cons, Exists_nil;
    [ change (call_tool "remap_dimensions" arguments)
        with (remap_dimensions arguments); unfold remap_dimensions
    | change (call_tool "extract_toml_mappings" arguments)
        with (extract_toml_mappings arguments); unfold extract_toml_mappings
    | change (call_tool "validate_mapping_file" arguments)
        with (validate_mapping_file arguments); unfold validate_mapping_file
    | change (call_tool "validate_tableau_workbook" arguments)
        with (validate_tableau_workbook arguments);
      unfold validate_tableau_workbook
    | change (call_tool "analyze_workbook" arguments)
        with (analyze_workbook arguments); unfold analyze_workbook
    | change (call_tool "write_file" arguments)
        with (write_file arguments); unfold write_file ];
    lookups; try case_match;
    (split; [intros Hex; repeat (destruct Hex as [Hex|Hex]; try done); done
            | try done; intros _; auto 10]).
Qed.

Lemma X2_missing_argument_iff_schema_required_witness :
  call_tool "write_file" {[ "file_path" := "out/rules.csv" ]}
  = Ret (ValueError_missing ["file_path"; "content"]).
Proof.
  apply (X2_missing_argument_iff_schema_required
           (mkTool "write_file" ["file_path"; "content"]
              ["file_path"; "content"])).
  - repeat first [apply list_elem_of_here | apply list_elem_of_further].
  - apply Exists_cons_tl, Exists_cons_hd. reflexivity.
Defined.

(** X3: for every tool of [list_tools] called with all the arguments its
    schema requires, whatever the file system answers (missing files,
    failing reads or writes), [call_tool] returns a text; it does not raise. *)
Theorem X3_io_failures_become_text tool arguments
    W (FS : FileSystem W) (w : W) :
  tool ∈ list_tools ->
  Forall (fun r => is_Some (arguments !! r)) (tool_required tool) ->
  exists m, fst (run w (call_tool (tool_name tool) arguments)) = Text m.
Proof.
  intros Hin Hall. each_tool Hin; cbn [tool_name tool_required] in *;
    repeat match goal with
      | H : Forall _ (_ :: _) |- _ =>
          apply Forall_cons in H as [[? ?] H]
      end;
    [ change (call_tool "remap_dimensions" arguments)
        with (remap_dimensions arguments);
      unfold remap_dimensions, remap_mappings, remap_content
    | change (call_tool "extract_toml_mappings" arguments)
        with (extract_toml_mappings arguments); unfold extract_toml_mappings
    | change (call_tool "validate_mapping_file" arguments)
        with (validate_mapping_file arguments); unfold validate_mapping_file
    | change (call_tool "validate_tableau_workbook" arguments)
        with (validate_tableau_workbook arguments);
      unfold validate_tableau_workbook
    | change (call_tool "analyze_workbook" arguments)
        with (analyze_workbook arguments); unfold analyze_workbook
    | change (call_tool "write_file" arguments)
        with (write_file arguments); unfold write_file ];
    repeat match goal with H : _ !! _ = Some _ |- _ => rewrite H; clear H end;
    step_run; try (destruct (load_rows _)); step_run; eauto.
Qed.

Lemma X3_io_failures_become_text_witness :
  exists m,
    fst (run sample_fs
           (call_tool "analyze_workbook"
              {[ "workbook_file_path" := "missing.twb" ]}))
    = Text m.
Proof.
  apply (X3_io_failures_become_text
           (mkTool "analyze_workbook" ["workbook_file_path"]
              ["workbook_file_path"])).
  - repeat first [apply list_elem_of_here | apply list_elem_of_further].
  - repeat constructor. by eexists.
Defined.

(** X4: [extract_toml_mappings], [validate_mapping_file],
    [validate_tableau_workbook] and [analyze_workbook] only read: whatever
    the arguments and the answers, they leave the file system as it was. *)
Theorem X4_readers_leave_file_system name arguments
    W (FS : FileSystem W) (w : W) :
  name ∈ ["extract_toml_mappings"; "validate_mapping_file";
          "validate_tableau_workbook"; "analyze_workbook"] ->
  snd (run w (call_tool name arguments)) = w.
Proof.
  intros Hin. each_tool Hin;
    [ change (call_tool "extract_toml_mappings" arguments)
        with (extract_toml_mappings arguments); unfold extract_toml_mappings
    | change (call_tool "validate_mapping_file" arguments)
        with (validate_mapping_file arguments); unfold validate_mapping_file
    | change (call_tool "validate_tableau_workbook" arguments)
        with (validate_tableau_workbook arguments);
      unfold validate_tableau_workbook
    | change (call_tool "analyze_workbook" arguments)
        with (analyze_workbook arguments); unfold analyze_workbook ];
    lookups; step_run; done.
Qed.

Lemma X4_readers_leave_file_system_witness :
  snd (run sample_fs
         (call_tool "validate_mapping_file"
            {[ "mapping_file_path" := "mixed.csv" ]}))
  = sample_fs.
Proof.
  apply (X4_readers_leave_file_system "validate_mapping_file").
  repeat first [apply list_elem_of_here | apply list_elem_of_further].
Defined.

(** X5: [remap_dimensions] writes nothing when the mapping file cannot be
    read, holds no usable rule, or the workbook cannot be read; otherwise the
    only changes it makes are creating the parent directory of
    [output_file_path] and, when that succeeds, writing to [output_file_path]
    the workbook text with all rules applied. *)
Theorem X5_remap_writes_only_output W (FS : FileSystem W) (w : W) arguments
    mapping_file_path workbook_file_path output_file_path :
  arguments !! "mapping_file_path" = Some mapping_file_path ->
  arguments !! "workbook_file_path" = Some workbook_file_path ->
  arguments !! "output_file_path" = Some output_file_path ->
  let after := snd (run w (call_tool "remap_dimensions" arguments)) in
  (forall e, fs_csv w mapping_file_path = Raised e -> after = w)
  /\ (forall rows,
         fs_csv w mapping_file_path = Got rows ->
         load_rows rows = [] -> after = w)
  /\ (forall rows e,
         fs_csv w mapping_file_path = Got rows ->
         fs_read w workbook_file_path = Raised e -> after = w)
  /\ (forall rows tableau_content,
         fs_csv w mapping_file_path = Got rows ->
         load_rows rows <> [] ->
         fs_read w workbook_file_path = Got tableau_content ->
         let w1 := fst (fs_makedirs w output_file_path) in
         after
         = match snd (fs_makedirs w output_file_path) with
           | Some _ => w1
           | None =>
               fst (fs_write w1 output_file_path
                      (modified_content
                         (apply_replacements (load_rows rows)
                            tableau_content)))
           end).
Proof.
  intros Hm Hw Ho after. subst after.
  change (call_tool "remap_dimensions" arguments)
    with (remap_dimensions arguments).
  unfold remap_dimensions, remap_mappings, remap_content.
  rewrite Hm, Hw, Ho. cbn [run].
  split; [|split; [|split]].
  - by intros e ->.
  - by intros rows -> ->.
  - intros rows e -> Hread. destruct (load_rows rows); [done|].
    cbn [run]. cbn [run]. by rewrite Hread.
  - intros rows text -> Hne Hread.
    destruct (load_rows rows) as [|m ms] eqn:Hrows; [done|].
    cbn [run]. cbn [run]. rewrite Hread. cbn [run].
    destruct (fs_makedirs w output_file_path) as [w1 [e|]]; [done|].
    cbn [fst snd run].
    by destruct (fs_write w1 output_file_path _) as [w2 [e|]].
Qed.

Lemma X5_remap_writes_only_output_witness :
  snd (run sample_fs
         (call_tool "remap_dimensions"
            (sample_arguments "chain.csv" "in/a.twb")))
  = fst (fs_write sample_fs "out/book.twb" "C").
Proof.
  destruct (X5_remap_writes_only_output MemFS _ sample_fs
              (sample_arguments "chain.csv" "in/a.twb")
              "chain.csv" "in/a.twb" "out/book.twb" eq_refl eq_refl eq_refl)
    as (_ & _ & _ & Hwritten).
  apply (Hwritten [["A"; "B"]; ["B"; "C"]] "A");
    [reflexivity | discriminate | reflexivity].
Defined.

(** *** The strict loader *)

Lemma validate_rows_all i mappings rows :
  Forall (fun row => 2 <= length row) rows ->
  validate_rows i mappings rows = inr (mappings ++ map row_pair rows).
Proof.
  intros Hall. revert i mappings.
  induction Hall as [|row rows Hrow _ IH]; intros i mappings.
  - cbn. by rewrite app_nil_r.
  - cbn [validate_rows map].
    destruct (Nat.ltb_spec (length row) 2); [lia|].
    by rewrite IH, <- app_assoc.
Qed.

(** Every list of rows either has only rows of two or more columns, or
    splits at its first shorter row. *)
Lemma first_short_row (rows : list (list string)) :
  Forall (fun row => 2 <= length row) rows
  \/ exists pre short post,
       rows = pre ++ short :: post
       /\ Forall (fun row => 2 <= length row) pre
       /\ length short < 2.
Proof.
  induction rows as [|row rows IH]; [by left|].
  destruct (Nat.lt_ge_cases (length row) 2) as [Hshort|Hlong].
  - right. exists [], row, rows. by repeat split.
  - destruct IH as [Hall|(pre & short & post & -> & Hpre & Hshort)].
    + left. by constructor.
    + right. exists (row :: pre), short, post. repeat split; [|done].
      by constructor.
Qed.

(** X6: [validate_mapping_file] reports a mapping file as valid exactly when
    the file has at least one row and every row has two or more columns; the
    mappings it lists are then the trimmed first two columns of every row,
    in order, and they are the rules [remap_dimensions] loads from the same
    file. *)
Theorem X6_valid_mapping_file_iff rows mappings :
  validated_mapping (Got rows) = MappingValid mappings
  <-> rows <> []
      /\ Forall (fun row => 2 <= length row) rows
      /\ mappings = map row_pair rows
      /\ load_rows rows = mappings.
Proof.
  unfold validated_mapping. split.
  - destruct (first_short_row rows)
      as [Hall|(pre & short & post & -> & Hpre & Hshort)].
    + rewrite validate_rows_all by done. cbn [app].
      destruct rows as [|row rows]; [done|]. cbn [map].
      intros [= <-]. split; [done|]. split; [done|]. split; [done|].
      rewrite load_rows_filter.
      change (row_pair row :: map row_pair rows)
        with (map row_pair (row :: rows)). f_equal.
      clear -Hall. induction Hall as [|r rs Hr _ IH]; [done|].
      by rewrite filter_cons_True, IH.
    + by rewrite validate_rows_short.
  - intros (Hne & Hall & -> & _). rewrite validate_rows_all by done.
    cbn [app]. by destruct rows.
Qed.

Lemma X6_valid_mapping_file_iff_witness :
  validated_mapping (Got [["a "; " b"]; ["c"; "d"; "x"]])
  = MappingValid [("a", "b"); ("c", "d")].
Proof.
  apply X6_valid_mapping_file_iff.
  split; [discriminate|]. split; [repeat constructor|]. by split.
Defined.

(** X7: when [validate_mapping_file] answers "Line n does not have at least
    two columns", row n of the file (counting from 1) has fewer than two
    columns and every row before it has two or more; and it gives that
    answer whenever the file has such a row, however valid the rest is. *)
Theorem X7_error_line_is_first_short_row rows n :
  validated_mapping (Got rows) = ErrLine n
  <-> exists pre short post,
        rows = pre ++ short :: post
        /\ Forall (fun row => 2 <= length row) pre
        /\ length short < 2
        /\ n = S (length pre).
Proof.
  unfold validated_mapping. split.
  - destruct (first_short_row rows)
      as [Hall|(pre & short & post & -> & Hpre & Hshort)].
    + rewrite validate_rows_all by done. cbn [app].
      by destruct (map row_pair rows).
    + rewrite validate_rows_short by done. intros [= <-].
      exists pre, short, post. repeat split; [done|done|lia].
  - intros (pre & short & post & -> & Hpre & Hshort & ->).
    rewrite validate_rows_short by done. f_equal. lia.
Qed.

Lemma X7_error_line_is_first_short_row_witness :
  validated_mapping (Got [["a"; "b"]; []; ["c"]]) = ErrLine 2.
Proof.
  apply X7_error_line_is_first_short_row.
  exists [["a"; "b"]], [], [["c"]].
  split; [reflexivity|]. split; [repeat constructor|]. split; [cbn; lia|done].
Defined.

(** *** The replacement loop, further *)

Lemma report_sum_insert_le (report : gmap string nat) old n :
  report_sum (<[old := n]> report) <= n + report_sum report.
Proof.
  rewrite <- insert_delete_eq.
  rewrite report_sum_insert by apply lookup_delete_eq.
  destruct (report !! old) as [v|] eqn:Hold.
  - rewrite <- (insert_delete_id report old v) at 2 by done.
    rewrite report_sum_insert by apply lookup_delete_eq. lia.
  - by rewrite delete_id.
Qed.

(** X8: the total of [remap_dimensions] is 0 exactly when no rule's original
    occurs in the workbook text as read, and exactly when the report is
    empty; the text written is then the text read. *)
Theorem X8_no_replacements_iff_no_match mappings text :
  let st := apply_replacements mappings text in
  (replacements_made st = 0
   <-> Forall (fun m => Py.count text (fst m) = 0) mappings)
  /\ (replacements_made st = 0 <-> replacements_by_mapping st = ∅)
  /\ (replacements_made st = 0 -> modified_content st = text).
Proof.
  cbv zeta.
  induction mappings as [|[old new] before IH] using rev_ind.
  - cbn. repeat split; auto.
  - destruct IH as (IHmatch & IHreport & IHtext).
    rewrite apply_replacements_snoc, replace_step_unfold. cbv zeta.
    cbn [replacements_made replacements_by_mapping modified_content].
    rewrite Forall_app, Forall_singleton. cbn [fst].
    destruct (Py.count (modified_content (apply_replacements before text)) old)
      as [|k] eqn:Hcount; cbn [Nat.ltb Nat.leb].
    + rewrite Nat.add_0_r, count_zero_replace by done.
      split; [|by split]. split.
      * intros Hz. split; [by apply IHmatch|].
        by rewrite <- (IHtext Hz).
      * intros [Hb _]. by apply IHmatch.
    + split; [|split].
      * split; [lia|]. intros [Hb Hm].
        apply IHmatch in Hb. rewrite (IHtext Hb) in Hcount. congruence.
      * split; [lia|]. intros Hempty. by apply insert_non_empty in Hempty.
      * lia.
Qed.

Lemma X8_no_replacements_iff_no_match_witness :
  replacements_made
    (apply_replacements [("Foo", "Bar"); ("Qux", "Baz")] "Baz") = 0.
Proof.
  apply (proj1 (X8_no_replacements_iff_no_match
                  [("Foo", "Bar"); ("Qux", "Baz")] "Baz")).
  repeat constructor.
Defined.

(** X9: every count in the replacement report is positive, is at most the
    total and belongs to the original of some rule; the counts of the report
    never add up to more than the total, and the report has at most as many
    entries as there are rules. *)
Theorem X9_report_counts_bounded mappings text :
  let st := apply_replacements mappings text in
  (forall original n,
      replacements_by_mapping st !! original = Some n ->
      0 < n <= replacements_made st /\ original ∈ map fst mappings)
  /\ report_sum (replacements_by_mapping st) <= replacements_made st
  /\ size (replacements_by_mapping st) <= length mappings.
Proof.
  cbv zeta.
  induction mappings as [|[old new] before IH] using rev_ind.
  - cbn. split; [|split; [done|by rewrite map_size_empty]].
    intros original n. by rewrite lookup_empty.
  - destruct IH as (IHcount & IHsum & IHsize).
    rewrite apply_replacements_snoc, replace_step_unfold. cbv zeta.
    cbn [replacements_made replacements_by_mapping].
    rewrite map_app, length_app. cbn [map fst length].
    destruct (Py.count (modified_content (apply_replacements before text)) old)
      as [|k]; cbn [Nat.ltb Nat.leb].
    + split; [|split; lia]. intros original n Hn.
      destruct (IHcount original n Hn) as [Hle Hin].
      split; [lia|]. apply elem_of_app. by left.
    + split; [|split].
      * intros original n. destruct (decide (old = original)) as [->|Hne].
        -- rewrite lookup_insert_eq. intros [= <-]. split; [lia|].
           apply elem_of_app. right. apply list_elem_of_here.
        -- rewrite lookup_insert_ne by done. intros Hn.
           destruct (IHcount original n Hn) as [Hle Hin].
           split; [lia|]. apply elem_of_app. by left.
      * pose proof (report_sum_insert_le
                      (replacements_by_mapping (apply_replacements before text))
                      old (S k)). lia.
      * rewrite map_size_insert. destruct (_ !! old); cbn; lia.
Qed.

Lemma X9_report_counts_bounded_witness :
  0 < 2 <= replacements_made (apply_replacements [("A", "AA"); ("A", "B")] "A")
  /\ "A" ∈ map fst [("A", "AA"); ("A", "B")].
Proof.
  apply (proj1 (X9_report_counts_bounded [("A", "AA"); ("A", "B")] "A")).
  reflexivity.
Defined.

Lemma prefix_app_drop old s :
  String.prefix old s = true -> s = old +:+ Py.drop (String.length old) s.
Proof.
  revert s. induction old as [|a old IH]; intros s; [done|].
  destruct s as [|b s]; [done|]. cbn [String.prefix].
  destruct (ascii_dec a b) as [->|]; [|done].
  intros Hp. rewrite string_app_cons. cbn [String.length Py.drop].
  by rewrite <- IH.
Qed.

Lemma drop_empty k : Py.drop k EmptyString = EmptyString.
Proof. by destruct k. Qed.

(** Replacing a string by itself gives the text back. *)
Lemma replace_go_same old skip s :
  old ≠ EmptyString -> Py.replace_go old old skip s = Py.drop skip s.
Proof.
  intros Hold. revert skip. induction s as [|c s IH]; intros skip.
  - by rewrite drop_empty.
  - cbn [Py.replace_go]. destruct skip as [|k]; [|by rewrite IH].
    destruct (String.prefix old (String c s)) eqn:Hp.
    + rewrite IH. destruct old as [|a old]; [done|].
      apply prefix_app_drop in Hp. cbn [String.length Py.drop] in *.
      replace (S (String.length old) - 1) with (String.length old) by lia.
      done.
    + by rewrite IH.
Qed.

Lemma replace_same s old : Py.replace s old old = s.
Proof.
  destruct old as [|a old].
  - cbn. induction s as [|c s IH]; [done|]. cbn. by rewrite IH.
  - apply (replace_go_same (String a old) 0 s). done.
Qed.

(** X10: a mapping file whose every rule maps a name to itself leaves the
    workbook text unchanged, although each rule counts the occurrences of its
    original: the total is the sum of those counts in the text as read. *)
Theorem X10_identity_rules_keep_text mappings text :
  Forall (fun m => fst m = snd m) mappings ->
  let st := apply_replacements mappings text in
  modified_content st = text
  /\ replacements_made st
     = sum_list_with (fun m => Py.count text (fst m)) mappings.
Proof.
  cbv zeta. induction mappings as [|[old new] before IH] using rev_ind.
  - done.
  - intros [Hb Hm]%Forall_app.
    apply (proj1 (Forall_singleton _ _)) in Hm. cbn [fst snd] in Hm.
    subst new. destruct (IH Hb) as [IHtext IHmade].
    rewrite apply_replacements_snoc, replace_step_unfold. cbv zeta.
    cbn [modified_content replacements_made].
    rewrite sum_list_with_app, IHtext, IHmade, replace_same.
    split; [done|]. cbn. lia.
Qed.

Lemma X10_identity_rules_keep_text_witness :
  modified_content (apply_replacements [("a", "a"); ("b", "b")] "abab") = "abab"
  /\ replacements_made (apply_replacements [("a", "a"); ("b", "b")] "abab")
     = sum_list_with (fun m => Py.count "abab" (fst m))
         [("a", "a"); ("b", "b")].
Proof.
  apply (X10_identity_rules_keep_text [("a", "a"); ("b", "b")] "abab").
  by repeat constructor.
Defined.

(** X11: for a rule with a non-empty original, the number the rule adds to
    the total is the number of pieces of text it rewrites: the text loses
    the length of [original] and gains the length of [replacement] that many
    times, and that many disjoint copies of [original] fit in the text. *)
Theorem X11_count_matches_rewrites st old new :
  old ≠ EmptyString ->
  let st' := replace_step st (old, new) in
  let n := replacements_made st' - replacements_made st in
  n = Py.count (modified_content st) old
  /\ String.length (modified_content st') + n * String.length old
     = String.length (modified_content st) + n * String.length new
  /\ n * String.length old <= String.length (modified_content st).
Proof.
  intros Hold. cbv zeta. rewrite replace_step_unfold. cbv zeta.
  cbn [replacements_made modified_content].
  replace (replacements_made st + Py.count (modified_content st) old
           - replacements_made st)
    with (Py.count (modified_content st) old) by lia.
  split; [done|]. split; [by apply replace_length|].
  pose proof (replace_length (modified_content st) old EmptyString Hold).
  cbn [String.length] in *. lia.
Qed.

Lemma X11_count_matches_rewrites_witness :
  let st := apply_replacements [] "aXbXc" in
  let st' := replace_step st ("X", "--") in
  let n := replacements_made st' - replacements_made st in
  n = Py.count (modified_content st) "X"
  /\ String.length (modified_content st') + n * String.length "X"
     = String.length (modified_content st) + n * String.length "--"
  /\ n * String.length "X" <= String.length (modified_content st).
Proof.
  apply (X11_count_matches_rewrites (apply_replacements [] "aXbXc") "X" "--").
  discriminate.
Defined.

Lemma intersperse_length new s :
  String.length (Py.intersperse new s)
  = String.length s + S (String.length s) * String.length new.
Proof.
  induction s as [|c s IH]; [cbn; lia|].
  cbn [Py.intersperse]. rewrite string_length_app.
  cbn [String.length]. rewrite IH. lia.
Qed.

(** X12: a rule whose original is empty always matches: it counts one more
    than the length of the current text, records that count under the empty
    key and puts [replacement] before every character and at the end. *)
Theorem X12_empty_original_matches_everywhere st new :
  let st' := replace_step st (EmptyString, new) in
  let len := String.length (modified_content st) in
  replacements_made st' = replacements_made st + S len
  /\ replacements_by_mapping st' !! EmptyString = Some (S len)
  /\ modified_content st' = Py.intersperse new (modified_content st)
  /\ String.length (modified_content st') = len + S len * String.length new.
Proof.
  cbv zeta. unfold replace_step.
  cbn [Py.count Nat.ltb Nat.leb Py.replace
       replacements_made replacements_by_mapping modified_content].
  rewrite lookup_insert_eq, intersperse_length. done.
Qed.

(** *** The analyzer and the validator *)

(** A loop that appends every non-empty value of [f]. *)
Lemma append_if_truthy_loop (f : Tag -> string) tags (acc : list string) :
  fold_left
    (fun acc t => let v := f t in if truthy v then acc ++ [v] else acc)
    tags acc
  = acc ++ filter (fun v => v ≠ EmptyString) (map f tags).
Proof.
  revert acc. induction tags as [|t tags IH]; intros acc.
  - cbn. by rewrite app_nil_r.
  - cbn [fold_left map]. rewrite IH, filter_cons. cbv zeta.
    destruct (truthy (f t)) eqn:Ht.
    + apply truthy_spec in Ht. rewrite decide_True by done.
      by rewrite <- app_assoc.
    + apply truthy_false in Ht. by rewrite decide_False by (by intros []).
Qed.

Lemma filter_length_all {A} (P : A -> Prop) `{!forall x, Decision (P x)}
    (l : list A) :
  length (filter P l) = length l <-> Forall P l.
Proof.
  induction l as [|x l IH]; [by split|].
  rewrite filter_cons, Forall_cons. pose proof (length_filter P l).
  destruct (decide (P x)); cbn [length].
  - rewrite <- IH. split; [intros [= ?]; by split | intros [_ ->]; done].
  - split; [lia | by intros []].
Qed.

(** X13: the analyzer's calculated fields are the non-empty [formula]
    attributes of the [calculation] tags in document order, repeated formulas
    included, so there are never more of them than [calculation] tags. *)
Theorem X13_calculated_fields_in_document_order soup :
  let formulas := map (fun calculation => get calculation "formula" "")
                      (find_all "calculation" soup) in
  collect_calculated_fields soup
  = filter (fun formula => formula ≠ EmptyString) formulas
  /\ length (collect_calculated_fields soup)
     <= length (find_all "calculation" soup)
  /\ (length (collect_calculated_fields soup)
      = length (find_all "calculation" soup)
      <-> Forall
            (fun calculation => get calculation "formula" "" ≠ EmptyString)
            (find_all "calculation" soup)).
Proof.
  cbv zeta. unfold collect_calculated_fields.
  rewrite (append_if_truthy_loop
             (fun calculation => get calculation "formula" "")).
  cbn [app]. split; [done|].
  pose proof (length_filter (fun formula => formula ≠ EmptyString)
                (map (fun calculation => get calculation "formula" "")
                   (find_all "calculation" soup))) as Hle.
  rewrite length_map in Hle. split; [done|].
  rewrite <- (length_map (fun calculation => get calculation "formula" "")
                (find_all "calculation" soup)).
  rewrite filter_length_all, Forall_fmap. done.
Qed.

(** X14: [validate_tableau_workbook] and [analyze_workbook] agree on a parsed
    file. Without a [workbook] tag the first answers "not a valid Tableau
    workbook" and the second fails too; with one, both report the same
    version, and the analysis lists at most as many worksheets as the
    validation counts, as many exactly when every [worksheet] tag has a
    non-empty name. *)
Theorem X14_validator_and_analyzer_agree workbook_file_path soup :
  (validated_workbook (Got soup) = ErrNotWorkbook
   <-> soup_workbook soup = None)
  /\ (soup_workbook soup = None ->
      exists e, analysis workbook_file_path (Got soup) = ErrAnalyzing e)
  /\ (forall version datasources worksheets,
         validated_workbook (Got soup)
         = WorkbookValid version datasources worksheets ->
         analysis workbook_file_path (Got soup)
         = Analysis workbook_file_path version (collect_worksheets soup)
             (collect_columns soup) (prefixed_fields (collect_columns soup))
         /\ length (collect_worksheets soup) <= worksheets
         /\ (length (collect_worksheets soup) = worksheets
             <-> Forall
                   (fun worksheet => get worksheet "name" "" ≠ EmptyString)
                   (find_all "worksheet" soup))).
Proof.
  unfold validated_workbook, analysis.
  destruct (soup_workbook soup) as [workbook|].
  - split; [done|]. split; [done|].
    intros version datasources worksheets [= <- _ <-].
    split; [done|]. unfold collect_worksheets.
    rewrite (append_if_truthy_loop (fun worksheet => get worksheet "name" "")).
    cbn [app].
    pose proof (length_filter (fun name => name ≠ EmptyString)
                  (map (fun worksheet => get worksheet "name" "")
                     (find_all "worksheet" soup))) as Hle.
    rewrite length_map in Hle. split; [done|].
    rewrite <- (length_map (fun worksheet => get worksheet "name" "")
                  (find_all "worksheet" soup)).
    rewrite filter_length_all, Forall_fmap. done.
  - split; [done|]. split; [by eexists|done].
Qed.

Lemma X14_validator_and_analyzer_agree_witness :
  analysis "book.twb" (Got sample_soup)
  = Analysis "book.twb" "18.1" (collect_worksheets sample_soup)
      (collect_columns sample_soup)
      (prefixed_fields (collect_columns sample_soup))
  /\ length (collect_worksheets sample_soup) <= 3.
Proof.
  destruct (X14_validator_and_analyzer_agree "book.twb" sample_soup)
    as (_ & _ & Hvalid).
  destruct (Hvalid "18.1" 1 3) as (Hsame & Hle & _); [reflexivity|].
  by split.
Defined.

(** The number of fields held by a dictionary of groups. *)
Lemma dict_append_total prefix column d :
  dict_has prefix d = true ->
  sum_list_with (fun e => length (snd e)) (dict_append prefix column d)
  = S (sum_list_with (fun e => length (snd e)) d).
Proof.
  induction d as [|[k fields] d IH]; [done|].
  cbn [dict_has dict_append].
  destruct (String.eqb k prefix); cbn [orb].
  - intros _. cbn. rewrite length_app. cbn. lia.
  - intros Hhas. cbn. rewrite IH by done. lia.
Qed.

Lemma prefix_step_total d column :
  sum_list_with (fun e => length (snd e)) (prefix_step d column)
  = sum_list_with (fun e => length (snd e)) d
    + (if decide (2 <= length (Py.split column)) then 1 else 0).
Proof.
  unfold prefix_step.
  destruct (Nat.ltb_spec 1 (length (Py.split column))).
  - rewrite decide_True by lia.
    destruct (dict_has _ d) eqn:Hhas.
    + rewrite dict_append_total by done. lia.
    + rewrite sum_list_with_app. cbn. lia.
  - rewrite decide_False by lia. lia.
Qed.

(** X15: in the dictionary of naming patterns the prefixes are distinct and
    no group is empty; every field name of two or more tokens is in the group
    of its first token, and the groups together hold exactly as many fields
    as there are field names of two or more tokens. *)
Theorem X15_prefix_groups_partition columns :
  NoDup (map fst (prefixed_fields columns))
  /\ Forall (fun e => snd e <> []) (prefixed_fields columns)
  /\ (forall column prefix token rest,
         column ∈ columns ->
         Py.split column = prefix :: token :: rest ->
         exists fields,
           (prefix, fields) ∈ prefixed_fields columns /\ column ∈ fields)
  /\ sum_list_with (fun e => length (snd e)) (prefixed_fields columns)
     = length (filter (fun column => 2 <= length (Py.split column)) columns).
Proof.
  split; [|split; [|split]].
  - rewrite prefixed_fields_groups. unfold spec_groups.
    rewrite map_map. cbn [fst]. rewrite map_id. apply first_seen_NoDup.
  - rewrite prefixed_fields_groups. unfold spec_groups.
    apply Forall_forall. intros e (prefix & -> & Hin)%list_elem_of_fmap.
    apply (proj1 (first_seen_elem _ _)) in Hin.
    apply list_elem_of_omap in Hin as (column & Hcol & Hprefix).
    cbn [snd]. intros Hnil.
    assert (column ∈ cluster_members prefix columns) as Hmem.
    { unfold cluster_members. by apply list_elem_of_filter. }
    rewrite Hnil in Hmem. by apply not_elem_of_nil in Hmem.
  - intros column prefix token rest Hcol Hsplit.
    assert (cluster_prefix column = Some prefix) as Hprefix.
    { apply cluster_prefix_tokens. eauto. }
    exists (cluster_members prefix columns). split.
    + rewrite prefixed_fields_groups. unfold spec_groups.
      apply list_elem_of_fmap. exists prefix. split; [done|].
      apply (proj2 (first_seen_elem _ _)), list_elem_of_omap. eauto.
    + unfold cluster_members. by apply list_elem_of_filter.
  - unfold prefixed_fields.
    enough (forall d,
               sum_list_with (fun e => length (snd e))
                 (fold_left prefix_step columns d)
               = sum_list_with (fun e => length (snd e)) d
                 + length (filter (fun column => 2 <= length (Py.split column))
                             columns)) as Hloop by apply (Hloop []).
    induction columns as [|column columns IH]; intros d.
    + cbn. lia.
    + cbn [fold_left]. rewrite IH, prefix_step_total, filter_cons.
      destruct (decide (2 <= length (Py.split column))); cbn [length]; lia.
Qed.

Lemma X15_prefix_groups_partition_witness :
  exists fields,
    ("Net", fields)
      ∈ prefixed_fields
          ["Region North"; "Profit"; "Net Sales"; "Region South"]
    /\ "Net Sales" ∈ fields.
Proof.
  destruct (X15_prefix_groups_partition
              ["Region North"; "Profit"; "Net Sales"; "Region South"])
    as (_ & _ & Hgroup & _).
  apply (Hgroup "Net Sales" "Net" "Sales" []); [|reflexivity].
  repeat first [apply list_elem_of_here | apply list_elem_of_further].
Defined.

(** *** Loading again *)

Lemma lstrip_id s :
  (forall c, first_char s = Some c -> Py.isspace c = false) ->
  Py.lstrip s = s.
Proof.
  destruct s as [|a s]; [done|]. cbn [Py.lstrip first_char].
  intros Hfirst. by rewrite (Hfirst a).
Qed.

Lemma rstrip_id s :
  (forall c, last_char s = Some c -> Py.isspace c = false) ->
  Py.rstrip s = s.
Proof.
  induction s as [|a s IH]; [done|]. intros Hlast.
  cbn [Py.rstrip]. destruct s as [|b s].
  - cbn. by rewrite (Hlast a).
  - rewrite IH; [done|]. intros c Hc. by apply Hlast.
Qed.

Lemma strip_id s : trimmed s -> Py.strip s = s.
Proof.
  intros Htrim. unfold Py.strip.
  rewrite lstrip_id by (intros c Hc; apply Htrim; by left).
  apply rstrip_id. intros c Hc. apply Htrim. by right.
Qed.

(** X16: the loaders are stable: writing the rules they produce back as rows
    of two columns and loading those rows gives the same rules, through
    [remap_dimensions] and through [validate_mapping_file] alike. *)
Theorem X16_loading_loaded_rules_again rows :
  let rows_of := map (fun m : string * string => [fst m; snd m]) in
  load_rows (rows_of (load_rows rows)) = load_rows rows
  /\ forall mappings,
       validated_mapping (Got rows) = MappingValid mappings ->
       validated_mapping (Got (rows_of mappings)) = MappingValid mappings.
Proof.
  assert (forall ms, Forall trimmed_rule ms ->
            map row_pair (map (fun m : string * string => [fst m; snd m]) ms)
            = ms) as Hback.
  { intros ms Hms. induction Hms as [|[o n] ms [Ho Hn] _ IH]; [done|].
    cbn [map fst snd]. rewrite IH. f_equal. unfold row_pair. cbn [nth].
    cbn in Ho, Hn. by rewrite !strip_id. }
  assert (forall ms : list (string * string),
            Forall (fun row => 2 <= length row)
              (map (fun m : string * string => [fst m; snd m]) ms)) as Hlong.
  { intros ms. apply Forall_fmap, Forall_forall. intros m _. cbn. lia. }
  assert (forall rows', Forall trimmed_rule (map row_pair rows')) as Htrim.
  { intros rows'. apply Forall_fmap, Forall_forall. intros row _.
    apply row_pair_trimmed. }
  cbv zeta. split.
  - rewrite (load_rows_filter (map _ _)).
    replace (filter _ (map (fun m : string * string => [fst m; snd m])
                         (load_rows rows)))
      with (map (fun m : string * string => [fst m; snd m]) (load_rows rows)).
    + apply Hback. rewrite load_rows_filter. apply Htrim.
    + generalize (load_rows rows). intros ms.
      induction ms as [|m ms IH]; [done|]. cbn [map].
      rewrite filter_cons_True by (cbn; lia). by rewrite <- IH.
  - intros mappings Hvalid. unfold validated_mapping in *.
    destruct (validate_rows 0 [] rows) as [n|result] eqn:Hv; [done|].
    apply validate_rows_done in Hv. cbn [app] in Hv. subst result.
    destruct (map row_pair rows) as [|m ms] eqn:Hmap; [done|].
    injection Hvalid as <-. rewrite <- Hmap.
    rewrite validate_rows_all by apply Hlong. cbn [app].
    rewrite Hback by apply Htrim. by rewrite Hmap.
Qed.

Lemma X16_loading_loaded_rules_again_witness :
  validated_mapping (Got [["a"; "b"]; ["c"; "d"]])
  = MappingValid [("a", "b"); ("c", "d")].
Proof.
  exact (proj2 (X16_loading_loaded_rules_again
                  [[" a"; "b "; "x"]; ["c"; "d"]])
           [("a", "b"); ("c", "d")] eq_refl).
Defined.

(** *** The default output path of [get_prompt] *)

Lemma string_app_assoc s t u : (s +:+ t) +:+ u = s +:+ t +:+ u.
Proof.
  induction s as [|c s IH]; [done|].
  rewrite !string_app_cons. by rewrite IH.
Qed.

Lemma take_drop n s : OsPath.take n s +:+ Py.drop n s = s.
Proof.
  revert n. induction s as [|c s IH]; intros [|n]; try done.
  cbn [OsPath.take Py.drop]. by rewrite string_app_cons, IH.
Qed.

Lemma after_last_cons_zero c a s :
  OsPath.after_last c (String a s) = 0
  <-> OsPath.after_last c s = 0 /\ Ascii.eqb a c = false.
Proof.
  cbn [OsPath.after_last]. destruct (OsPath.after_last c s).
  - destruct (Ascii.eqb a c); split; try done. by intros [_ ?].
  - split; [done|]. by intros [? _].
Qed.

Lemma after_last_app c s t :
  OsPath.after_last c (s +:+ t)
  = match OsPath.after_last c t with
    | O => OsPath.after_last c s
    | S k => String.length s + S k
    end.
Proof.
  induction s as [|a s IH].
  { change (EmptyString +:+ t) with t. by destruct (OsPath.after_last c t). }
  rewrite string_app_cons. cbn [OsPath.after_last String.length]. rewrite IH.
  destruct (OsPath.after_last c t) as [|k]; [done|].
  rewrite Nat.add_succ_r. cbn. lia.
Qed.

Lemma after_last_take c n s :
  OsPath.after_last c s = 0 -> OsPath.after_last c (OsPath.take n s) = 0.
Proof.
  revert n. induction s as [|a s IH]; intros [|n]; try done.
  intros [Hs Ha]%after_last_cons_zero. cbn [OsPath.take].
  apply after_last_cons_zero. split; [by apply IH|done].
Qed.

(** The base name holds no separator. *)
Lemma after_last_basename p :
  OsPath.after_last "/" (OsPath.basename p) = 0.
Proof.
  unfold OsPath.basename. induction p as [|a p IH]; [done|].
  cbn [OsPath.after_last].
  destruct (OsPath.after_last "/" p) as [|k] eqn:Hp.
  - destruct (Ascii.eqb a "/") eqn:Ha; cbn [Py.drop]; [done|].
    by apply after_last_cons_zero.
  - exact IH.
Qed.

(** The character before position [after_last c s] is [c]. *)
Lemma drop_after_last c k s :
  OsPath.after_last c s = S k -> exists r, Py.drop k s = String c r.
Proof.
  revert k. induction s as [|a s IH]; intros k; [done|].
  cbn [OsPath.after_last].
  destruct (OsPath.after_last c s) as [|j] eqn:Hs.
  - destruct (Ascii.eqb_spec a c) as [->|]; [|done].
    intros [= <-]. by exists s.
  - intros [= <-]. cbn [Py.drop]. by apply IH.
Qed.

Lemma splitext_app s :
  fst (OsPath.splitext s) +:+ snd (OsPath.splitext s) = s.
Proof.
  unfold OsPath.splitext. destruct (_ && _); cbn [fst snd].
  - apply take_drop.
  - induction s as [|c s IH]; [done|]. rewrite string_app_cons. by rewrite IH.
Qed.

(** An extension is empty or starts with a dot. *)
Lemma splitext_ext s :
  snd (OsPath.splitext s) = EmptyString
  \/ exists r, snd (OsPath.splitext s) = String "." r.
Proof.
  unfold OsPath.splitext.
  destruct (OsPath.after_last "." s) as [|k] eqn:Hdot.
  - left. by rewrite andb_false_l.
  - destruct (_ && _); cbn [snd]; [|by left]. right.
    replace (S k - 1) with k by lia. by apply drop_after_last.
Qed.

Lemma splitext_stem_no_sep s :
  OsPath.after_last "/" s = 0 ->
  OsPath.after_last "/" (fst (OsPath.splitext s)) = 0.
Proof.
  intros Hs. unfold OsPath.splitext. destruct (_ && _); cbn [fst]; [|done].
  by apply after_last_take.
Qed.

Lemma endswith_sep a :
  Py.endswith a "/" = true -> OsPath.after_last "/" a = String.length a.
Proof.
  unfold Py.endswith. intros [Hlen Heq]%andb_true_iff.
  apply Nat.leb_le in Hlen. apply String.eqb_eq in Heq.
  cbn [String.length] in *.
  pose proof (take_drop (String.length a - 1) a) as Ha.
  rewrite Heq in Ha. rewrite <- Ha.
  rewrite after_last_app, string_length_app. cbn. lia.
Qed.

(** Joining a directory and a file name without separator puts the name
    after the directory, with a separator between them when the directory is
    not empty and does not end with one. *)
Lemma join_name a name :
  OsPath.after_last "/" name = 0 ->
  let prefix :=
    if negb (truthy a) || Py.endswith a "/" then a else a +:+ "/" in
  OsPath.join a name = prefix +:+ name
  /\ OsPath.after_last "/" prefix = String.length prefix.
Proof.
  intros Hname. cbv zeta. unfold OsPath.join.
  assert (String.prefix "/" name = false) as ->.
  { destruct name as [|c name]; [done|].
    apply after_last_cons_zero in Hname as [_ Hc]. cbn [String.prefix].
    destruct (ascii_dec "/" c) as [<-|_]; done. }
  destruct (negb (truthy a) || Py.endswith a "/") eqn:Ha.
  - split; [done|]. apply orb_true_iff in Ha as [Ha|Ha].
    + destruct a; [done|]. by cbn in Ha.
    + by apply endswith_sep.
  - split; [by rewrite string_app_assoc|].
    rewrite after_last_app, string_length_app. cbn. lia.
Qed.

Lemma basename_join_name prefix name :
  OsPath.after_last "/" name = 0 ->
  OsPath.after_last "/" prefix = String.length prefix ->
  OsPath.basename (prefix +:+ name) = name.
Proof.
  intros Hname Hprefix. unfold OsPath.basename.
  rewrite after_last_app, Hname, Hprefix. apply drop_app_length.
Qed.

Lemma take_app_length s t : OsPath.take (String.length s) (s +:+ t) = s.
Proof.
  induction s as [|c s IH]; [by destruct t|].
  rewrite string_app_cons. cbn [String.length OsPath.take]. by rewrite IH.
Qed.

Lemma drop_last s :
  s ≠ EmptyString ->
  exists c, last_char s = Some c
            /\ Py.drop (String.length s - 1) s = String c EmptyString.
Proof.
  induction s as [|a s IH]; [done|]. intros _.
  destruct s as [|b s]; [by exists a|].
  destruct IH as (c & Hlast & Hdrop); [done|].
  exists c. split; [done|].
  replace (String.length (String a (String b s)) - 1)
    with (S (String.length (String b s) - 1)) by (cbn; lia).
  exact Hdrop.
Qed.

Lemma endswith_last s c :
  Py.endswith s (String c EmptyString) = true <-> last_char s = Some c.
Proof.
  unfold Py.endswith. cbn [String.length]. destruct s as [|a s].
  - split; [done|]. by cbn.
  - destruct (drop_last (String a s)) as (l & Hlast & Hdrop); [done|].
    rewrite Hdrop, Hlast, andb_true_iff, String.eqb_eq, Nat.leb_le.
    cbn [String.length]. split; [by intros [_ [= ->]]|].
    intros [= ->]. split; [lia|done].
Qed.

Lemma rstrip_sep_empty head :
  OsPath.rstrip_sep head = EmptyString <-> OsPath.all_sep head = true.
Proof.
  induction head as [|a head IH]; [done|].
  cbn [OsPath.rstrip_sep OsPath.all_sep].
  destruct (OsPath.rstrip_sep head) as [|b r].
  - rewrite (proj1 IH) by done. rewrite andb_true_r.
    by destruct (Ascii.eqb a "/").
  - split; [done|]. intros [_ Hall]%andb_true_iff.
    by apply IH in Hall.
Qed.

Lemma rstrip_sep_not_all head :
  OsPath.all_sep head = false ->
  OsPath.all_sep (OsPath.rstrip_sep head) = false.
Proof.
  induction head as [|a head IH]; [done|].
  cbn [OsPath.rstrip_sep OsPath.all_sep]. intros Hall.
  destruct (OsPath.rstrip_sep head) as [|b r] eqn:Hr.
  - apply rstrip_sep_empty in Hr. rewrite Hr, andb_true_r in Hall.
    rewrite Hall. cbn. by rewrite Hall.
  - change (Ascii.eqb a "/" && OsPath.all_sep (String b r) = false).
    rewrite IH; [apply andb_false_r|].
    apply not_true_is_false. intros Htrue.
    apply rstrip_sep_empty in Htrue. congruence.
Qed.

Lemma rstrip_sep_last head :
  last_char (OsPath.rstrip_sep head) ≠ Some "/"%char.
Proof.
  induction head as [|a head IH]; [done|].
  cbn [OsPath.rstrip_sep]. destruct (OsPath.rstrip_sep head) as [|b r].
  - destruct (Ascii.eqb_spec a "/"); [done|]. cbn. congruence.
  - exact IH.
Qed.

Lemma rstrip_sep_id s :
  last_char s ≠ Some "/"%char -> OsPath.rstrip_sep s = s.
Proof.
  induction s as [|a s IH]; [done|]. intros Hlast.
  cbn [OsPath.rstrip_sep]. destruct s as [|b s].
  - cbn. destruct (Ascii.eqb_spec a "/") as [->|]; [|done]. by cbn in Hlast.
  - by rewrite IH.
Qed.

Lemma rstrip_sep_app_sep s :
  OsPath.rstrip_sep (s +:+ "/") = OsPath.rstrip_sep s.
Proof.
  induction s as [|a s IH]; [done|].
  rewrite string_app_cons. cbn [OsPath.rstrip_sep]. by rewrite IH.
Qed.

Lemma all_sep_app_sep s : OsPath.all_sep (s +:+ "/") = OsPath.all_sep s.
Proof.
  induction s as [|a s IH]; [done|].
  rewrite string_app_cons. cbn [OsPath.all_sep]. by rewrite IH.
Qed.

Lemma all_sep_last s :
  OsPath.all_sep s = true -> s ≠ EmptyString -> last_char s = Some "/"%char.
Proof.
  induction s as [|a s IH]; [done|].
  cbn [OsPath.all_sep]. intros [Ha Hs]%andb_true_iff _.
  apply Ascii.eqb_eq in Ha as ->.
  destruct s as [|b s]; [done|]. by apply IH.
Qed.

(** The directory that [join] puts before a file name has the directory it
    was given as its own directory. *)
Lemma strip_head_join head :
  let d := OsPath.strip_head head in
  OsPath.strip_head
    (if negb (truthy d) || Py.endswith d "/" then d else d +:+ "/")
  = d.
Proof.
  cbv zeta. destruct head as [|a head]; [done|].
  destruct (OsPath.all_sep (String a head)) eqn:Hall.
  - assert (OsPath.strip_head (String a head) = String a head) as ->.
    { unfold OsPath.strip_head. by rewrite Hall, andb_false_r. }
    assert (Py.endswith (String a head) "/" = true) as ->.
    { apply endswith_last, all_sep_last; done. }
    rewrite orb_true_r. unfold OsPath.strip_head.
    by rewrite Hall, andb_false_r.
  - assert (OsPath.strip_head (String a head)
            = OsPath.rstrip_sep (String a head)) as ->.
    { unfold OsPath.strip_head. by rewrite Hall. }
    pose proof (rstrip_sep_not_all _ Hall) as Hnot.
    pose proof (rstrip_sep_last (String a head)) as Hlast.
    set (r := OsPath.rstrip_sep (String a head)) in *.
    assert (truthy r = true) as ->.
    { destruct r; [by cbn in Hnot|done]. }
    assert (Py.endswith r "/" = false) as ->.
    { apply not_true_is_false. by intros Hend%endswith_last. }
    cbn [negb orb]. unfold OsPath.strip_head.
    rewrite all_sep_app_sep, Hnot, rstrip_sep_app_sep.
    assert (truthy (r +:+ "/") = true) as ->.
    { destruct r; [by cbn in Hnot|done]. }
    cbn [andb negb]. by apply rstrip_sep_id.
Qed.

(** X17: when [get_prompt] makes up the output path (the timestamp holds no
    separator), the path is in the directory of the workbook, its file name
    is the workbook's name without extension followed by "_remapped_", the
    timestamp and ".twb", it passes the extension check of
    [validate_tableau_workbook], and it is never the workbook's own path, so
    remapping to it does not overwrite the workbook. *)
Theorem X17_default_output_path timestamp workbook_path :
  OsPath.after_last "/" timestamp = 0 ->
  let out := default_output_path timestamp workbook_path in
  OsPath.dirname out = OsPath.dirname workbook_path
  /\ OsPath.basename out
     = fst (OsPath.splitext (OsPath.basename workbook_path))
       +:+ "_remapped_" +:+ timestamp +:+ ".twb"
  /\ call_tool "validate_tableau_workbook" {[ "workbook_file_path" := out ]}
     = OpenSoup out (fun r => Ret (Text (validated_workbook r)))
  /\ out <> workbook_path.
Proof.
  intros Hstamp. cbv zeta. unfold default_output_path. cbv zeta.
  set (stem := fst (OsPath.splitext (OsPath.basename workbook_path))).
  set (name := stem +:+ "_remapped_" +:+ timestamp +:+ ".twb").
  assert (OsPath.after_last "/" name = 0) as Hname.
  { unfold name. rewrite !after_last_app, Hstamp. cbn.
    apply splitext_stem_no_sep, after_last_basename. }
  destruct (join_name (OsPath.dirname workbook_path) name Hname)
    as [Hjoin Hprefix].
  set (prefix := if negb (truthy (OsPath.dirname workbook_path))
                    || Py.endswith (OsPath.dirname workbook_path) "/"
                 then OsPath.dirname workbook_path
                 else OsPath.dirname workbook_path +:+ "/") in *.
  rewrite Hjoin.
  assert (OsPath.basename (prefix +:+ name) = name) as Hbase
    by (by apply basename_join_name).
  split; [|split; [done|split]].
  - unfold OsPath.dirname at 1.
    rewrite after_last_app, Hname, Hprefix, take_app_length.
    apply strip_head_join.
  - rewrite call_tool_validate_workbook. unfold validate_tableau_workbook.
    rewrite lookup_singleton_eq.
    assert (Py.endswith (Py.lower (prefix +:+ name)) ".twb" = true) as ->;
      [|done].
    unfold name. rewrite <- !string_app_assoc, lower_app. apply endswith_app.
  - intros Heq. apply (f_equal OsPath.basename) in Heq. rewrite Hbase in Heq.
    rewrite <- (splitext_app (OsPath.basename workbook_path)) in Heq.
    fold stem in Heq. unfold name in Heq. apply (inj (String.app stem)) in Heq.
    destruct (splitext_ext (OsPath.basename workbook_path)) as [Hext|[r Hext]];
      rewrite Hext in Heq; discriminate.
Qed.

Lemma X17_default_output_path_witness :
  let out := default_output_path "20240102_030405" "reports/Sales.twb" in
  OsPath.dirname out = OsPath.dirname "reports/Sales.twb"
  /\ OsPath.basename out
     = fst (OsPath.splitext (OsPath.basename "reports/Sales.twb"))
       +:+ "_remapped_" +:+ "20240102_030405" +:+ ".twb"
  /\ call_tool "validate_tableau_workbook" {[ "workbook_file_path" := out ]}
     = OpenSoup out (fun r => Ret (Text (validated_workbook r)))
  /\ out <> "reports/Sales.twb".
Proof.
  apply (X17_default_output_path "20240102_030405" "reports/Sales.twb").
  reflexivity.
Defined.

(** X18: [get_prompt] raises "Unknown prompt" exactly for the names
    [list_prompts] does not list. For the listed prompt it gives the prompt
    message exactly when the arguments [list_prompts] marks as required are
    present, and otherwise raises [KeyError] on a required argument that is
    absent; the message names the workbook and TOML paths given and, as
    output path, the one given when it is non-empty and the default one
    otherwise. *)
Theorem X18_get_prompt_arguments timestamp name arguments :
  (get_prompt timestamp name arguments = ValueError_prompt name
   <-> name ∉ map fst list_prompts)
  /\ forall prompt_arguments,
       (name, prompt_arguments) ∈ list_prompts ->
       ((exists workbook toml out,
            get_prompt timestamp name arguments
            = PromptMessage workbook toml out)
        <-> Forall (fun a => snd a = true -> is_Some (arguments !! fst a))
              prompt_arguments)
       /\ (forall key,
              get_prompt timestamp name arguments = KeyError key ->
              (key, true) ∈ prompt_arguments /\ arguments !! key = None)
       /\ (forall workbook toml out,
              get_prompt timestamp name arguments
              = PromptMessage workbook toml out ->
              arguments !! "Workbook File Path" = Some workbook
              /\ arguments !! "Remapping TOML Path" = Some toml
              /\ out = match arguments !! "Output File Path" with
                       | Some given =>
                           if truthy given then given
                           else default_output_path timestamp workbook
                       | None => default_output_path timestamp workbook
                       end).
Proof.
  unfold get_prompt. cbn [map fst list_prompts]. split.
  - case_decide as Hname.
    + subst name. split.
      * intros Hres. exfalso. revert Hres.
        lookups; cbn [default from_option id]; repeat case_match; done.
      * intros Hnot. exfalso. apply Hnot, list_elem_of_here.
    + split; [|done]. intros _ Hin.
      apply list_elem_of_singleton in Hin. done.
  - intros prompt_arguments Hin.
    apply list_elem_of_singleton in Hin. injection Hin as -> ->.
    rewrite decide_True by done.
    rewrite !Forall_cons, Forall_nil. cbn [fst snd].
    destruct (arguments !! "Workbook File Path") as [workbook|] eqn:Hw;
      destruct (arguments !! "Remapping TOML Path") as [toml|] eqn:Ht;
      destruct (arguments !! "Output File Path") as [given|] eqn:Ho;
      cbn [default from_option id];
      try destruct (truthy given) eqn:Hgiven;
      (split; [split|split]);
      try (intros (? & ? & ? & ?); done);
      try (intros (Hwb & Htoml & _); try (by destruct (Hwb eq_refl));
           by destruct (Htoml eq_refl));
      try (intros _; eauto; done);
      try (intros key [= <-]; split; [|done];
           repeat first [apply list_elem_of_here | apply list_elem_of_further]);
      try (intros ? ? ? [= <- <- <-]; done);
      try done.
Qed.

Lemma X18_get_prompt_arguments_witness :
  exists workbook toml out,
    get_prompt "20240102_030405" "remap_dimensions_from_toml"
      {[ "Workbook File Path" := "reports/Sales.twb";
         "Remapping TOML Path" := "rules.toml" ]}
    = PromptMessage workbook toml out.
Proof.
  destruct (X18_get_prompt_arguments "20240102_030405"
              "remap_dimensions_from_toml"
              {[ "Workbook File Path" := "reports/Sales.twb";
                 "Remapping TOML Path" := "rules.toml" ]}) as [_ Hlisted].
  destruct (Hlisted [ ("Workbook File Path", true);
                      ("Remapping TOML Path", true);
                      ("Output File Path", false) ]) as ([_ Hgiven] & _ & _).
  - apply list_elem_of_here.
  - apply Hgiven.
    apply Forall_cons; split; [intros _; by exists "reports/Sales.twb"|].
    apply Forall_cons; split; [intros _; by exists "rules.toml"|].
    apply Forall_cons; split; [discriminate|]. apply Forall_nil_2.
Defined.

(** *** Two mapping files in a row *)

(** The loop started from any state: the text goes on from the state's text,
    the total is added to the state's total and the new counts are laid over
    the state's report. *)
Lemma replace_loop_from mappings st :
  let fresh := apply_replacements mappings (modified_content st) in
  fold_left replace_step mappings st
  = {| modified_content := modified_content fresh;
       replacements_made := replacements_made st + replacements_made fresh;
       replacements_by_mapping :=
         replacements_by_mapping fresh ∪ replacements_by_mapping st |}.
Proof.
  cbv zeta. induction mappings as [|[old new] before IH] using rev_ind.
  - cbn. rewrite Nat.add_0_r, (left_id_L ∅ (∪)). by destruct st.
  - rewrite fold_left_app, apply_replacements_snoc. cbn [fold_left].
    rewrite IH, !replace_step_unfold. cbv zeta.
    cbn [modified_content replacements_made replacements_by_mapping].
    f_equal; [lia|].
    destruct (0 <? _); [|done]. by rewrite insert_union_l.
Qed.

(** X19: remapping with one mapping file and then remapping the result with
    a second one gives the text that a single run with the rules of both, in
    that order, gives; the single run's total is the sum of the two totals
    and its report is the second report laid over the first. *)
Theorem X19_two_runs_equal_one mappings1 mappings2 text :
  let st1 := apply_replacements mappings1 text in
  let st2 := apply_replacements mappings2 (modified_content st1) in
  let st := apply_replacements (mappings1 ++ mappings2) text in
  modified_content st = modified_content st2
  /\ replacements_made st = replacements_made st1 + replacements_made st2
  /\ replacements_by_mapping st
     = replacements_by_mapping st2 ∪ replacements_by_mapping st1.
Proof.
  cbv zeta.
  assert (apply_replacements (mappings1 ++ mappings2) text
          = fold_left replace_step mappings2
              (apply_replacements mappings1 text)) as ->.
  { unfold apply_replacements. by rewrite fold_left_app. }
  by rewrite replace_loop_from.
Qed.
